(** * E-learning quiz application (Streamlit): session, scoring, notification

    A shallow embedding of [src/main.py].  One execution of the Streamlit
    script (one "run") is a computation in a small state-and-signal monad
    over the framework's session state and the two external logs the script
    writes to (the result worksheet and the mail transport).  Python values
    are kept as the script has them: the score is computed in binary64
    floating point and truncated by [int], the answers are a dictionary
    keyed by question ordinal, exceptions end the run and keep the
    assignments made before them. *)

From Stdlib Require Import ZArith Lia Floats.SpecFloat.
From stdpp Require Import gmap strings list fin_maps pretty.

Open Scope Z_scope.

(** ** Python values *)

Module Py.

(** The exceptions the modelled statements can raise. *)
Inductive Exn :=
| ZeroDivisionError | AttributeError | TypeError
| KeyError | ValueError | OverflowError.

Global Instance Exn_eq_dec : EqDecision Exn.
Proof. solve_decision. Defined.

(** Python's [float] is IEEE 754 binary64. *)
Definition prec : Z := 53.
Definition emax : Z := 1024.

(** [float(z)] for an [int] [z]: the nearest double, ties to even. *)
Definition float_of_int (z : Z) : spec_float :=
  binary_normalize prec emax z 0 false.

Definition float_div : spec_float -> spec_float -> spec_float := SFdiv prec emax.
Definition float_mul : spec_float -> spec_float -> spec_float := SFmul prec emax.
Definition float_sub : spec_float -> spec_float -> spec_float := SFsub prec emax.

(** [a / b] on two [int]s: true division, [ZeroDivisionError] on [b = 0].
    The quotient of the two converted operands is the correctly rounded
    quotient whenever both are below 2^53 in magnitude. *)
Definition int_truediv (a b : Z) : Exn + spec_float :=
  if b =? 0 then inl ZeroDivisionError
  else inr (float_div (float_of_int a) (float_of_int b)).

(** [x / n] and [x * n] with a [float] on the left and an [int] on the
    right; the [int] is converted first. *)
Definition float_truediv_int (x : spec_float) (n : Z) : Exn + spec_float :=
  if n =? 0 then inl ZeroDivisionError
  else inr (float_div x (float_of_int n)).

Definition float_mul_int (x : spec_float) (n : Z) : spec_float :=
  float_mul x (float_of_int n).

Definition int_sub_float (n : Z) (x : spec_float) : spec_float :=
  float_sub (float_of_int n) x.

(** [x > 0] on a [float]. *)
Definition float_gt_zero (x : spec_float) : bool :=
  SFltb (S754_zero false) x.

(** [int(x)] on a [float]: truncation toward zero; infinities and NaN
    raise. *)
Definition int_of_float (x : spec_float) : Exn + Z :=
  match x with
  | S754_zero _ => inr 0
  | S754_infinity _ => inl OverflowError
  | S754_nan => inl ValueError
  | S754_finite s m e =>
      let a := match e with
               | Z0 => Zpos m
               | Zpos p => Zpos m * 2 ^ Zpos p
               | Zneg p => Zpos m / 2 ^ Zpos p
               end in
      inr (if s then - a else a)
  end.

(** [sum(bs)] on a sequence of [bool]s. *)
Definition sum_bools (bs : list bool) : Z :=
  foldr (fun b acc => Z.b2z b + acc) 0 bs.

(** [l.index(a)]: position of the first occurrence. *)
Fixpoint list_index (a : string) (l : list string) : option nat :=
  match l with
  | [] => None
  | x :: l' => if decide (x = a) then Some 0%nat else S <$> list_index a l'
  end.

End Py.

Import Py.

(** ** Configuration, question banks, roster *)

(** One entry of [config['themes']].  [enabled] is read with
    [.get('enabled', False)], so the key may be absent. *)
Record ThemeConfig := {
  title : string;
  description : string;
  time_limit_minutes : Z;
  passing_score : Z;
  enabled : option bool;
  pdf_path : string;
  questions_path : string;
}.

Record EmailSettings := {
  send_on_completion : bool;
  send_on_retake_needed : bool;
}.

Record Config := {
  themes : gmap string ThemeConfig;
  admins : list string;
  email_settings : EmailSettings;
}.

(** One entry of the ["questions"] list of a question file. *)
Record Question := {
  question : string;
  options : list string;
  correct_answer : Z;
}.

(** What the script reads from disk: the configuration, the roster
    ([None] when the file is missing) as rows of mail address and full
    name, and the question files by path ([None] when the file is missing
    or is not JSON). *)
Record Env := {
  config : Config;
  employees_csv : option (list (string * string));
  question_files : string -> option (list Question);
}.

(** ** Session state *)

Inductive Page := Login | Dashboard | Learning | Quiz | Result.

Global Instance Page_eq_dec : EqDecision Page.
Proof. solve_decision. Defined.

(** [st.session_state].  [quiz_time_spent] is not created by
    [init_session_state]: [None] there stands for the missing attribute;
    in the other optional fields [None] is Python's [None]. *)
Record SessionState := {
  user_email : option string;
  user_name : option string;
  current_page : Page;
  selected_theme : option string;
  start_time : option Z;
  quiz_answers : gmap nat bool;
  quiz_score : option Z;
  quiz_time_spent : option Z;
}.

(** [init_session_state] on a fresh session. *)
Definition init_session_state : SessionState := {|
  user_email := None;
  user_name := None;
  current_page := Login;
  selected_theme := None;
  start_time := None;
  quiz_answers := ∅;
  quiz_score := None;
  quiz_time_spent := None;
|}.

Definition set_user_email (v : option string) (s : SessionState) : SessionState :=
  {| user_email := v; user_name := user_name s; current_page := current_page s;
     selected_theme := selected_theme s; start_time := start_time s;
     quiz_answers := quiz_answers s; quiz_score := quiz_score s;
     quiz_time_spent := quiz_time_spent s |}.

Definition set_user_name (v : option string) (s : SessionState) : SessionState :=
  {| user_email := user_email s; user_name := v; current_page := current_page s;
     selected_theme := selected_theme s; start_time := start_time s;
     quiz_answers := quiz_answers s; quiz_score := quiz_score s;
     quiz_time_spent := quiz_time_spent s |}.

Definition set_current_page (v : Page) (s : SessionState) : SessionState :=
  {| user_email := user_email s; user_name := user_name s; current_page := v;
     selected_theme := selected_theme s; start_time := start_time s;
     quiz_answers := quiz_answers s; quiz_score := quiz_score s;
     quiz_time_spent := quiz_time_spent s |}.

Definition set_selected_theme (v : option string) (s : SessionState) : SessionState :=
  {| user_email := user_email s; user_name := user_name s; current_page := current_page s;
     selected_theme := v; start_time := start_time s;
     quiz_answers := quiz_answers s; quiz_score := quiz_score s;
     quiz_time_spent := quiz_time_spent s |}.

Definition set_start_time (v : option Z) (s : SessionState) : SessionState :=
  {| user_email := user_email s; user_name := user_name s; current_page := current_page s;
     selected_theme := selected_theme s; start_time := v;
     quiz_answers := quiz_answers s; quiz_score := quiz_score s;
     quiz_time_spent := quiz_time_spent s |}.

Definition set_quiz_answers (v : gmap nat bool) (s : SessionState) : SessionState :=
  {| user_email := user_email s; user_name := user_name s; current_page := current_page s;
     selected_theme := selected_theme s; start_time := start_time s;
     quiz_answers := v; quiz_score := quiz_score s;
     quiz_time_spent := quiz_time_spent s |}.

Definition set_quiz_score (v : option Z) (s : SessionState) : SessionState :=
  {| user_email := user_email s; user_name := user_name s; current_page := current_page s;
     selected_theme := selected_theme s; start_time := start_time s;
     quiz_answers := quiz_answers s; quiz_score := v;
     quiz_time_spent := quiz_time_spent s |}.

Definition set_quiz_time_spent (v : option Z) (s : SessionState) : SessionState :=
  {| user_email := user_email s; user_name := user_name s; current_page := current_page s;
     selected_theme := selected_theme s; start_time := start_time s;
     quiz_answers := quiz_answers s; quiz_score := quiz_score s;
     quiz_time_spent := v |}.

(** ** The external logs *)

(** A cell of a worksheet row. [cell_time t] is the clock value [t]
    rendered by [strftime]. *)
Inductive Cell :=
| cell_time (t : Z)
| cell_text (s : string)
| cell_int (z : Z)
| cell_none.

(** The two message templates of the script, with the values
    interpolated into subject and body. *)
Inductive Template :=
| completion_notice (name email : option string) (theme_title : string)
                    (score time_spent : Z) (verdict : string)
| retake_notice (name email : option string) (theme_title : string)
                (score passing time_spent : Z).

Record Mail := {
  recipient : string;
  template : Template;
}.

(** The state a run works on: the session, the rows of the result
    worksheet, and every call of [send_email_notification] so far with the
    value it returned. *)
Record Runtime := {
  session_state : SessionState;
  worksheet : list (list Cell);
  outbox : list (Mail * bool);
}.

Definition initial_runtime : Runtime :=
  {| session_state := init_session_state; worksheet := []; outbox := [] |}.

(** ** What one run reads from outside *)

Inductive Button :=
| btn_login
| btn_logout
| btn_start (theme_key : string)
| btn_learning_back
| btn_to_quiz
| btn_quiz_back_top
| btn_quiz_back_bottom
| btn_submit
| btn_result_dashboard
| btn_result_another.

Global Instance Button_eq_dec : EqDecision Button.
Proof. solve_decision. Defined.

(** The widget values and collaborator behaviour of one run: the button
    whose click triggered it (none on a rerun), the text of the login
    field, the option selected in the radio group of each question
    ordinal, the two clock readings in microseconds, and whether the
    worksheet and the mail transport (per recipient) work. *)
Record Input := {
  clicked : option Button;
  login_email : string;
  radio : nat -> nat;
  clock : Z;
  sheet_clock : Z;
  sink_up : bool;
  smtp_up : string -> bool;
}.

(** [st.button(...)] for button [b]. *)
Definition st_button (inp : Input) (b : Button) : bool :=
  bool_decide (clicked inp = Some b).

(** The run that [st.rerun()] starts: the same widget values and no
    click; the clock readings are taken unchanged. *)
Definition rerun_input (inp : Input) : Input :=
  {| clicked := None; login_email := login_email inp; radio := radio inp;
     clock := clock inp; sheet_clock := sheet_clock inp;
     sink_up := sink_up inp; smtp_up := smtp_up inp |}.

(** The same run with other collaborator behaviour. *)
Definition with_collaborators (up : bool) (smtp : string -> bool) (inp : Input) : Input :=
  {| clicked := clicked inp; login_email := login_email inp; radio := radio inp;
     clock := clock inp; sheet_clock := sheet_clock inp;
     sink_up := up; smtp_up := smtp |}.

(** ** The script monad *)

(** A run ends early by [st.rerun()] or by an uncaught exception. *)
Inductive Signal :=
| RerunException
| Raised (e : Exn).

Inductive Res (A : Type) :=
| Done (a : A)
| Stop (sig : Signal).
Arguments Done {A} a.
Arguments Stop {A} sig.

Definition Script (A : Type) : Type := Runtime -> Runtime * Res A.

Global Instance Script_ret : MRet Script := fun A a rt => (rt, Done a).

Global Instance Script_bind : MBind Script := fun A B f m rt =>
  match m rt with
  | (rt', Done a) => f a rt'
  | (rt', Stop sig) => (rt', Stop sig)
  end.

Definition raise {A} (e : Exn) : Script A := fun rt => (rt, Stop (Raised e)).

Definition st_rerun : Script unit := fun rt => (rt, Stop RerunException).

Definition try_py {A} (r : Exn + A) : Script A :=
  match r with
  | inl e => raise e
  | inr a => mret a
  end.

Definition get_session : Script SessionState := fun rt => (rt, Done (session_state rt)).

Definition assign (f : SessionState -> SessionState) : Script unit := fun rt =>
  ({| session_state := f (session_state rt);
      worksheet := worksheet rt; outbox := outbox rt |}, Done tt).

Fixpoint for_each {A} (l : list A) (body : A -> Script unit) : Script unit :=
  match l with
  | [] => mret tt
  | x :: l' => body x ;; for_each l' body
  end.

(** ** Utility functions of the script *)

(** [config['themes'][theme_key]]; the key held in the session may be
    [None] or unknown, both a [KeyError]. *)
Definition theme_of (cfg : Config) (theme_key : option string) : Script ThemeConfig :=
  match theme_key with
  | None => raise KeyError
  | Some k =>
      match themes cfg !! k with
      | None => raise KeyError
      | Some tc => mret tc
      end
  end.

(** [load_questions]: the ["questions"] list of the theme's file ([[]]
    when the key is absent from the file), [None] when reading fails. *)
Definition load_questions (env : Env) (theme_key : option string)
    : Script (option (list Question)) :=
  tc ← theme_of (config env) theme_key;
  mret (question_files env (questions_path tc)).

(** [authenticate_user]: the full name of the first roster row with this
    mail address. *)
Definition authenticate_user (env : Env) (email : string) : option string :=
  match employees_csv env with
  | None => None
  | Some rows =>
      match filter (fun row => row.1 = email) rows with
      | [] => None
      | row :: _ => Some row.2
      end
  end.

(** [send_email_notification]: every exception is caught inside; the
    call returns whether the message went out. *)
Definition send_email_notification (inp : Input) (to : string) (t : Template) : Script bool :=
  fun rt =>
    let ok := smtp_up inp to in
    ({| session_state := session_state rt;
        worksheet := worksheet rt;
        outbox := outbox rt ++ [({| recipient := to; template := t |}, ok)] |},
     Done ok).

Definition opt_cell (o : option string) : Cell :=
  match o with
  | Some s => cell_text s
  | None => cell_none
  end.

(** The row [save_to_google_sheets] builds. *)
Definition attempt_row (now : Z) (email name : option string) (theme_title : string)
    (score : Z) (time_spent : string) (answers : list bool) : list Cell :=
  [cell_time now; opt_cell email; opt_cell name; cell_text theme_title;
   cell_int score; cell_text time_spent]
  ++ ((fun ans : bool => cell_text (if ans then "○" else "✕")) <$> answers)
  ++ [cell_text "-"].

(** [save_to_google_sheets]: appends the row and returns [True]; missing
    credentials or any exception of the worksheet API give [False] and
    no row. *)
Definition save_to_google_sheets (inp : Input) (email name : option string)
    (theme_title : string) (score : Z) (time_spent : string) (answers : list bool)
    : Script bool :=
  fun rt =>
    if sink_up inp then
      ({| session_state := session_state rt;
          worksheet := worksheet rt ++
            [attempt_row (sheet_clock inp) email name theme_title score time_spent answers];
          outbox := outbox rt |},
       Done true)
    else (rt, Done false).

Definition is_enabled (tc : ThemeConfig) : bool := default false (enabled tc).

(** [get_enabled_themes]. *)
Definition get_enabled_themes (cfg : Config) : gmap string ThemeConfig :=
  filter (fun kv => is_enabled kv.2 = true) (themes cfg).

(** ** Pages *)

(** [show_login_page]. *)
Definition show_login_page (env : Env) (inp : Input) : Script unit :=
  let email := login_email inp in
  if st_button inp btn_login then
    if bool_decide (email = "") then mret tt
    else
      match authenticate_user env email with
      | Some full_name =>
          assign (set_user_email (Some email));;
          assign (set_user_name (Some full_name));;
          assign (set_current_page Dashboard);;
          st_rerun
      | None => mret tt
      end
  else mret tt.

(** The start button of one enabled theme, the body of the loop of
    [show_dashboard]. *)
Definition start_button (inp : Input) (entry : string * ThemeConfig) : Script unit :=
  let '(theme_key, theme_config) := entry in
  if st_button inp (btn_start theme_key) then
    assign (set_selected_theme (Some theme_key));;
    assign (set_current_page Learning);;
    assign (set_start_time (Some (clock inp)));;
    st_rerun
  else mret tt.

(** [show_dashboard]. *)
Definition show_dashboard (env : Env) (inp : Input) : Script unit :=
  (if st_button inp btn_logout then
     assign (set_user_email None);;
     assign (set_user_name None);;
     assign (set_current_page Login);;
     st_rerun
   else mret tt);;
  let enabled_themes := get_enabled_themes (config env) in
  if bool_decide (size enabled_themes = 0%nat) then mret tt
  else
    for_each (map_to_list enabled_themes) (start_button inp).

(** [show_learning_page], up to the study material, whose display leaves
    the session alone. *)
Definition show_learning_page (env : Env) (inp : Input) : Script unit :=
  s ← get_session;
  theme_config ← theme_of (config env) (selected_theme s);
  (if st_button inp btn_learning_back then
     assign (set_current_page Dashboard);;
     assign (set_selected_theme None);;
     st_rerun
   else mret tt);;
  (if st_button inp btn_to_quiz then
     assign (set_current_page Quiz);;
     st_rerun
   else mret tt).

(** [score >= passing_score], the test of the result page and of the
    completion message, and the label both derive from it. *)
Definition passed (score passing : Z) : bool := score >=? passing.

Definition pass_status (score passing : Z) : string :=
  if passed score passing then "合格 ✅" else "不合格 ❌".

(** The body of the two loops over [config['admins']]: one message to
    one administrator, its outcome ignored. *)
Definition notify (inp : Input) (t : Template) (admin : string) : Script unit :=
  send_email_notification inp admin t;;
  mret tt.

(** The two navigation buttons of the result page run the same block. *)
Definition leave_result : Script unit :=
  assign (set_current_page Dashboard);;
  assign (set_selected_theme None);;
  assign (set_quiz_answers ∅);;
  assign (set_quiz_score None);;
  st_rerun.

(** [show_result_page].  The score is read as it is; the missing
    attribute [quiz_time_spent] raises when read, a [None] score raises
    at the first comparison with the passing score. *)
Definition show_result_page (env : Env) (inp : Input) : Script unit :=
  s ← get_session;
  theme_config ← theme_of (config env) (selected_theme s);
  let passing := passing_score theme_config in
  time_spent ← match quiz_time_spent s with
               | None => raise AttributeError
               | Some t => mret t
               end;
  score ← match quiz_score s with
          | None => raise TypeError
          | Some v => mret v
          end;
  (if passed score passing then mret tt
   else
     if send_on_retake_needed (email_settings (config env)) then
       for_each (admins (config env))
         (notify inp (retake_notice (user_name s) (user_email s) (title theme_config)
                                    score passing time_spent))
     else mret tt);;
  (if st_button inp btn_result_dashboard then leave_result else mret tt);;
  (if st_button inp btn_result_another then leave_result else mret tt).

(** [(datetime.now() - start_time).total_seconds() / 60]: the interval in
    microseconds over 10^6, then over 60, both in floating point. *)
Definition elapsed_minutes (now : Z) (start : option Z) : Script spec_float :=
  match start with
  | None => raise TypeError
  | Some t0 =>
      total_seconds ← try_py (int_truediv (now - t0) 1000000);
      try_py (float_truediv_int total_seconds 60)
  end.

(** The body of the question loop: the radio group of question [i] and
    the assignment to [quiz_answers[i]]. *)
Definition record_answer (inp : Input) (iq : nat * Question) : Script unit :=
  let '(i, q) := iq in
  match options q !! radio inp i with
  | None => raise ValueError
  | Some answer =>
      match list_index answer (options q) with
      | None => raise ValueError
      | Some selected_index =>
          assign (fun s =>
            set_quiz_answers
              (<[i := bool_decide (Z.of_nat selected_index = correct_answer q)]>
                 (quiz_answers s)) s)
      end
  end.

(** [enumerate(questions, 1)]. *)
Definition enumerate1 (questions : list Question) : list (nat * Question) :=
  zip (seq 1 (length questions)) questions.

(** [sum(st.session_state.quiz_answers.values())]. *)
Definition correct_count (answers : gmap nat bool) : Z :=
  sum_bools (map_to_list answers).*2.

(** [int((correct_count / len(questions)) * 100)]. *)
Definition compute_score (answers : gmap nat bool) (questions : list Question) : Exn + Z :=
  match int_truediv (correct_count answers) (Z.of_nat (length questions)) with
  | inl e => inl e
  | inr ratio => int_of_float (float_mul_int ratio 100)
  end.

(** [[quiz_answers.get(i + 1, False) for i in range(len(questions))]]. *)
Definition answers_list (answers : gmap nat bool) (questions : list Question) : list bool :=
  (fun i => default false (answers !! (i + 1)%nat)) <$> seq 0 (length questions).

(** The branch of the submit button in [show_quiz_page]: scoring, the
    three session assignments, the worksheet row, the completion
    messages, the rerun. *)
Definition submit (env : Env) (inp : Input) (theme_config : ThemeConfig)
    (questions : list Question) (elapsed_time : spec_float) : Script unit :=
  let passing := passing_score theme_config in
  s ← get_session;
  score ← try_py (compute_score (quiz_answers s) questions);
  time_spent ← try_py (int_of_float elapsed_time);
  assign (set_quiz_score (Some score));;
  assign (set_quiz_time_spent (Some time_spent));;
  assign (set_current_page Result);;
  s ← get_session;
  save_to_google_sheets inp (user_email s) (user_name s) (title theme_config)
    score (pretty time_spent +:+ "分") (answers_list (quiz_answers s) questions);;
  (if send_on_completion (email_settings (config env)) then
     for_each (admins (config env))
       (notify inp (completion_notice (user_name s) (user_email s) (title theme_config)
                                      score time_spent (pass_status score passing)))
   else mret tt);;
  st_rerun.

(** [show_quiz_page].  The text of the countdown is display only. *)
Definition show_quiz_page (env : Env) (inp : Input) : Script unit :=
  s ← get_session;
  theme_config ← theme_of (config env) (selected_theme s);
  let time_limit := time_limit_minutes theme_config in
  elapsed_time ← elapsed_minutes (clock inp) (start_time s);
  let remaining_time := int_sub_float time_limit elapsed_time in
  if float_gt_zero remaining_time then
    (if st_button inp btn_quiz_back_top then
       assign (set_current_page Learning);;
       st_rerun
     else mret tt);;
    questions ← load_questions env (selected_theme s);
    match questions with
    | None => mret tt
    | Some questions =>
        for_each (enumerate1 questions) (record_answer inp);;
        (if st_button inp btn_quiz_back_bottom then
           assign (set_current_page Learning);;
           st_rerun
         else mret tt);;
        (if st_button inp btn_submit then
           submit env inp theme_config questions elapsed_time
         else mret tt)
    end
  else
    show_result_page env inp.

(** [main]: the page dispatch of one run. *)
Definition main (env : Env) (inp : Input) : Script unit :=
  s ← get_session;
  if bool_decide (current_page s = Login ∨ user_email s = None) then
    show_login_page env inp
  else
    match current_page s with
    | Login => mret tt
    | Dashboard => show_dashboard env inp
    | Learning => show_learning_page env inp
    | Quiz => show_quiz_page env inp
    | Result => show_result_page env inp
    end.

(** One user interaction: the run triggered by the widget, and the run
    that follows when the first one ended in [st.rerun()]. *)
Definition interact (env : Env) (inp : Input) (rt : Runtime) : Runtime :=
  match main env inp rt with
  | (rt', Stop RerunException) => (main env (rerun_input inp) rt').1
  | (rt', _) => rt'
  end.

(** A session of several interactions, oldest first. *)
Definition interactions (env : Env) (inps : list Input) (rt : Runtime) : Runtime :=
  foldl (fun rt inp => interact env inp rt) rt inps.

(** The runtimes the script can be in: any number of runs, with any
    widget values, clock readings and collaborator behaviour, from a
    fresh session. *)
Inductive reachable (env : Env) : Runtime -> Prop :=
| reachable_init : reachable env initial_runtime
| reachable_run rt inp :
    reachable env rt -> reachable env (main env inp rt).1.

(** ** Notions used by the properties *)

(** Everything in the session but the answers. *)
Definition nav (s : SessionState) :=
  (user_email s, user_name s, current_page s, selected_theme s,
   start_time s, quiz_score s, quiz_time_spent s).

(** The selected theme is a key of the configuration and is enabled. *)
Definition theme_enabled (cfg : Config) (theme_key : option string) : Prop :=
  ∃ k tc, theme_key = Some k ∧ themes cfg !! k = Some tc ∧ enabled tc = Some true.

(** What every run keeps true, by page: behind the login page a user is
    set; a theme is selected exactly on the learning, quiz and result
    pages, and it is an enabled one; a score is present on the result
    page only. *)
Definition session_inv (cfg : Config) (s : SessionState) : Prop :=
  match current_page s with
  | Login => selected_theme s = None ∧ quiz_score s = None
  | Dashboard =>
      user_email s ≠ None ∧ selected_theme s = None ∧ quiz_score s = None
  | Learning | Quiz =>
      user_email s ≠ None ∧ quiz_score s = None
      ∧ theme_enabled cfg (selected_theme s)
  | Result => user_email s ≠ None ∧ theme_enabled cfg (selected_theme s)
  end.

(** Two runtimes with the same session, whatever their logs. *)
Definition agree (rt rt' : Runtime) : Prop := session_state rt = session_state rt'.

(** Two scripts that, from runtimes with the same session, end with the
    same session and in the same way. *)
Definition indep {A} (m m' : Script A) : Prop :=
  ∀ rt rt', agree rt rt' -> agree (m rt).1 (m' rt').1 ∧ (m rt).2 = (m' rt').2.

(** [n] successive runs with the same widget values. *)
Fixpoint renders (env : Env) (inp : Input) (n : nat) (rt : Runtime) : Runtime :=
  match n with
  | O => rt
  | S n' => renders env inp n' (main env inp rt).1
  end.

(** The messages one pass over the administrators hands to the
    transport, with the outcome of each call. *)
Definition batch (inp : Input) (t : Template) (l : list string) : list (Mail * bool) :=
  (fun a => ({| recipient := a; template := t |}, smtp_up inp a)) <$> l.

(** ** A sample deployment *)

Module Sample.

Definition yes_no (correct : Z) : Question :=
  {| question := "Q"; options := ["yes"; "no"]; correct_answer := correct |}.

Definition theme (name path : string) : ThemeConfig :=
  {| title := name; description := ""; time_limit_minutes := 10;
     passing_score := 80; enabled := Some true;
     pdf_path := ""; questions_path := path |}.

(** Four themes: two, one, fifty and no questions; the first option is
    the correct one everywhere. *)
Definition cfg : Config :=
  {| themes := <["basics" := theme "Basics" "basics.json"]>
               (<["ethics" := theme "Ethics" "ethics.json"]>
               (<["survey" := theme "Survey" "survey.json"]>
               (<["draft" := theme "Draft" "draft.json"]> ∅)));
     admins := ["admin@example.com"];
     email_settings := {| send_on_completion := true; send_on_retake_needed := true |} |}.

Definition files (path : string) : option (list Question) :=
  if bool_decide (path = "basics.json") then Some [yes_no 0; yes_no 0]
  else if bool_decide (path = "ethics.json") then Some [yes_no 0]
  else if bool_decide (path = "survey.json") then Some (replicate 50 (yes_no 0))
  else if bool_decide (path = "draft.json") then Some []
  else None.

Definition env : Env :=
  {| config := cfg;
     employees_csv := Some [("user@example.com", "User")];
     question_files := files |}.

(** A click at clock reading [now], every radio group on its first
    option, both collaborators working. *)
Definition click (b : Button) (now : Z) : Input :=
  {| clicked := Some b; login_email := "user@example.com";
     radio := fun _ => 0%nat; clock := now; sheet_clock := now;
     sink_up := true; smtp_up := fun _ => true |}.

(** The same with the first option on questions 1 to 29 and the second
    on the others. *)
Definition click_29 (b : Button) (now : Z) : Input :=
  {| clicked := Some b; login_email := "user@example.com";
     radio := fun i => if bool_decide (i ≤ 29)%nat then 0%nat else 1%nat;
     clock := now; sheet_clock := now;
     sink_up := true; smtp_up := fun _ => true |}.

Definition second : Z := 1000000.
Definition minute : Z := 60 * second.

(** Log in, open the quiz of [basics] (which records its two answers),
    go back to the dashboard without submitting. *)
Definition visit_basics : list Input :=
  [click btn_login 0; click (btn_start "basics") second;
   click btn_to_quiz (2 * second); click btn_quiz_back_top (3 * second);
   click btn_learning_back (4 * second)].

(** Then take the one-question quiz of [ethics] and submit it. *)
Definition then_ethics : list Input :=
  [click (btn_start "ethics") (5 * second); click btn_to_quiz (6 * second);
   click btn_submit (7 * second)].

(** A user on the quiz page of theme [key], started at clock 0. *)
Definition on_quiz (key : string) : Runtime :=
  interactions env
    [click btn_login 0; click (btn_start key) 0; click btn_to_quiz second]
    initial_runtime.

End Sample.

(** ** The page transitions of one run *)

(** What a run can do to the session: leave page and identity as they
    are (the answers may be recorded again), or take one of the
    navigation branches of the page it shows. *)
Inductive transition (env : Env) (s s' : SessionState) : Prop :=
| t_stay :
    nav s' = nav s -> transition env s s'
| t_login email full_name :
    current_page s = Login -> email ≠ "" ->
    authenticate_user env email = Some full_name ->
    s' = set_current_page Dashboard
           (set_user_name (Some full_name) (set_user_email (Some email) s)) ->
    transition env s s'
| t_logout :
    current_page s = Dashboard ->
    s' = set_current_page Login (set_user_name None (set_user_email None s)) ->
    transition env s s'
| t_start k tc now :
    current_page s = Dashboard ->
    themes (config env) !! k = Some tc -> enabled tc = Some true ->
    s' = set_start_time (Some now)
           (set_current_page Learning (set_selected_theme (Some k) s)) ->
    transition env s s'
| t_learning_back :
    current_page s = Learning ->
    s' = set_selected_theme None (set_current_page Dashboard s) ->
    transition env s s'
| t_to_quiz :
    current_page s = Learning ->
    s' = set_current_page Quiz s ->
    transition env s s'
| t_quiz_back answers :
    current_page s = Quiz ->
    s' = set_current_page Learning (set_quiz_answers answers s) ->
    transition env s s'
| t_submit answers score t :
    current_page s = Quiz ->
    s' = set_current_page Result
           (set_quiz_time_spent (Some t)
              (set_quiz_score (Some score) (set_quiz_answers answers s))) ->
    transition env s s'
| t_leave_result :
    current_page s = Result ->
    s' = set_quiz_score None
           (set_quiz_answers ∅
              (set_selected_theme None (set_current_page Dashboard s))) ->
    transition env s s'.

(** The page graph: from each page, the pages a run can end on. *)
Definition page_successor (p p' : Page) : bool :=
  match p, p' with
  | Login, (Login | Dashboard) => true
  | Dashboard, (Dashboard | Login | Learning) => true
  | Learning, (Learning | Dashboard | Quiz) => true
  | Quiz, (Quiz | Learning | Result) => true
  | Result, (Result | Dashboard) => true
  | _, _ => false
  end.

(** The session after a theme was started from the dashboard. *)
Definition started (k : string) (now : Z) (s : SessionState) : SessionState :=
  set_start_time (Some now) (set_current_page Learning (set_selected_theme (Some k) s)).

(** The worksheet and the mail log together. *)
Definition logs (rt : Runtime) : list (list Cell) * list (Mail * bool) :=
  (worksheet rt, outbox rt).

(** A script that leaves an observation of the runtime as it was. *)
Definition keeps {A B} (obs : Runtime -> B) (m : Script A) : Prop :=
  ∀ rt, obs (m rt).1 = obs rt.

(** A script that never ends in [st.rerun()]. *)
Definition no_rerun {A} (m : Script A) : Prop :=
  ∀ rt, (m rt).2 ≠ Stop RerunException.


(** ** A second sample deployment *)

Module Demo.

(** A roster that lists one address twice. *)
Definition roster : list (string * string) :=
  [("a@example.com", "Aoki"); ("b@example.com", "Baba"); ("a@example.com", "Abe")].

Definition theme (name : string) (flag : option bool) : ThemeConfig :=
  {| title := name; description := ""; time_limit_minutes := 10;
     passing_score := 80; enabled := flag;
     pdf_path := ""; questions_path := name +:+ ".json" |}.

(** One enabled theme, one switched off, one without the [enabled] key. *)
Definition cfg : Config :=
  {| themes := <["open" := theme "open" (Some true)]>
               (<["closed" := theme "closed" (Some false)]>
               (<["unset" := theme "unset" None]> ∅));
     admins := ["x@example.com"; "y@example.com"];
     email_settings := {| send_on_completion := true; send_on_retake_needed := false |} |}.

(** The first question repeats an option text; the second does not. *)
Definition bank : list Question :=
  [ {| question := "Q1"; options := ["same"; "same"; "other"]; correct_answer := 1 |};
    {| question := "Q2"; options := ["x"; "y"; "z"]; correct_answer := 2 |} ].

Definition env : Env :=
  {| config := cfg; employees_csv := Some roster;
     question_files := fun path => if bool_decide (path = "open.json") then Some bank else None |}.

(** A click with the mail address [email] in the login field, the second
    option picked in question 1 and the third in question 2, a working
    worksheet and a transport that fails for the first administrator. *)
Definition click (b : option Button) (email : string) (now : Z) : Input :=
  {| clicked := b; login_email := email;
     radio := fun i => i; clock := now; sheet_clock := now;
     sink_up := true; smtp_up := fun a => bool_decide (a ≠ "x@example.com") |}.

Definition on_dashboard : Runtime :=
  interactions env [click (Some btn_login) "b@example.com" 0] initial_runtime.

Definition on_quiz : Runtime :=
  interactions env
    [click (Some (btn_start "open")) "" 0; click (Some btn_to_quiz) "" 1000000]
    on_dashboard.

Definition on_result : Runtime :=
  interactions env [click (Some btn_submit) "" 2000000] on_quiz.

End Demo.

(** * Properties *)

Ltac script_unfold :=
  unfold mbind, mret, Script_bind, Script_ret, assign, raise, st_rerun,
    get_session, try_py in *.

(** ** The loops *)

(** The loop over the administrators calls the transport once per
    administrator, in order, and never ends the run. *)
Lemma notify_all inp t l rt :
  for_each l (notify inp t) rt =
  ({| session_state := session_state rt;
      worksheet := worksheet rt;
      outbox := outbox rt ++
        ((fun a => ({| recipient := a; template := t |}, smtp_up inp a)) <$> l) |},
   Done tt).
Proof.
  revert rt. induction l as [|a l IH]; intros [s w o]; simpl.
  - by rewrite app_nil_r.
  - unfold notify at 1, send_email_notification. script_unfold. simpl.
    rewrite IH. simpl. by rewrite <- app_assoc.
Qed.

(** One pass of the question loop only writes to [quiz_answers], and
    ends normally or in the [ValueError] of [index]. *)
Lemma record_answer_frame inp iq rt rt' res :
  record_answer inp iq rt = (rt', res) ->
  nav (session_state rt') = nav (session_state rt)
  ∧ worksheet rt' = worksheet rt
  ∧ outbox rt' = outbox rt
  ∧ (res = Done tt ∨ res = Stop (Raised ValueError)).
Proof.
  destruct iq as [i q]. unfold record_answer.
  destruct (options q !! radio inp i) as [answer|];
    [destruct (list_index answer (options q)) as [ix|]|];
    script_unfold; intros [= <- <-]; simpl; auto.
Qed.

Lemma record_answers_frame inp l rt rt' res :
  for_each l (record_answer inp) rt = (rt', res) ->
  nav (session_state rt') = nav (session_state rt)
  ∧ worksheet rt' = worksheet rt
  ∧ outbox rt' = outbox rt
  ∧ (res = Done tt ∨ res = Stop (Raised ValueError)).
Proof.
  revert rt. induction l as [|iq l IH]; intros rt; simpl.
  - intros [= <- <-]. auto.
  - unfold mbind, Script_bind.
    destruct (record_answer inp iq rt) as [rt1 r1] eqn:E1.
    apply record_answer_frame in E1 as (Hn & Hw & Ho & Hr).
    destruct r1 as [[]|sig].
    + intros H. apply IH in H as (Hn' & Hw' & Ho' & Hr').
      rewrite Hn', Hw', Ho'. auto.
    + intros [= <- <-]. destruct Hr as [?|Hr]; [done|]. auto.
Qed.

(** The loop over the start buttons either finds no clicked button and
    changes nothing, or selects the clicked theme, which is one of the
    listed ones, and asks for a rerun. *)
Lemma start_buttons_spec inp l rt :
  for_each l (start_button inp) rt = (rt, Done tt)
  ∨ ∃ k tc, (k, tc) ∈ l ∧
      for_each l (start_button inp) rt =
      ({| session_state :=
            set_start_time (Some (clock inp))
              (set_current_page Learning
                 (set_selected_theme (Some k) (session_state rt)));
          worksheet := worksheet rt; outbox := outbox rt |},
       Stop RerunException).
Proof.
  induction l as [|[k tc] l IH]; simpl.
  - by left.
  - unfold start_button at 1 2. destruct (st_button inp (btn_start k)).
    + right. exists k, tc. split; [by left|]. by script_unfold.
    + script_unfold. simpl. destruct IH as [IH|(k' & tc' & Hin & IH)].
      * by left.
      * right. exists k', tc'. split; [by right|done].
Qed.

(** ** The invariant is kept by every run *)

Lemma session_inv_nav cfg s s' :
  nav s' = nav s -> session_inv cfg s -> session_inv cfg s'.
Proof.
  unfold nav, session_inv. intros [= He Hn Hp Ht Hs Hq Hts].
  by rewrite He, Hp, Ht, Hq.
Qed.

Lemma session_inv_init cfg : session_inv cfg init_session_state.
Proof. by split. Qed.

Lemma enabled_themes_lookup cfg k tc :
  (k, tc) ∈ map_to_list (get_enabled_themes cfg) ->
  themes cfg !! k = Some tc ∧ enabled tc = Some true.
Proof.
  intros Hin. apply elem_of_map_to_list in Hin.
  unfold get_enabled_themes in Hin.
  apply map_lookup_filter_Some in Hin as [Hk He]. simpl in He.
  split; [done|]. unfold is_enabled in He.
  by destruct (enabled tc) as [[]|].
Qed.

Lemma show_login_page_inv env inp rt :
  session_inv (config env) (session_state rt) ->
  current_page (session_state rt) = Login ∨ user_email (session_state rt) = None ->
  session_inv (config env) (session_state (show_login_page env inp rt).1).
Proof.
  intros Hinv Hlogin. unfold show_login_page.
  destruct (st_button inp btn_login); [|done].
  case_bool_decide; [done|].
  destruct (authenticate_user env (login_email inp)) as [full_name|]; [|done].
  script_unfold. simpl. unfold session_inv in *. simpl.
  destruct (current_page (session_state rt)); destruct Hlogin as [?|Hnone];
    try done; try (destruct Hinv as (Hu & _); by destruct Hu).
Qed.

Lemma show_dashboard_inv env inp rt :
  session_inv (config env) (session_state rt) ->
  current_page (session_state rt) = Dashboard ->
  session_inv (config env) (session_state (show_dashboard env inp rt).1).
Proof.
  intros Hinv Hpage. unfold show_dashboard.
  unfold session_inv in Hinv. rewrite Hpage in Hinv. destruct Hinv as (Hu & Ht & Hs).
  destruct (st_button inp btn_logout).
  { script_unfold. simpl. by split. }
  script_unfold. simpl. case_bool_decide.
  { simpl. unfold session_inv. by rewrite Hpage. }
  destruct (start_buttons_spec inp (map_to_list (get_enabled_themes (config env))) rt)
    as [->|(k & tc & Hin & ->)]; simpl.
  { unfold session_inv. by rewrite Hpage. }
  apply enabled_themes_lookup in Hin as [Hk He].
  unfold session_inv. simpl. repeat split; try done. by exists k, tc.
Qed.

Lemma show_learning_page_inv env inp rt :
  session_inv (config env) (session_state rt) ->
  current_page (session_state rt) = Learning ->
  session_inv (config env) (session_state (show_learning_page env inp rt).1).
Proof.
  intros Hinv Hpage. unfold show_learning_page, theme_of. script_unfold. simpl.
  destruct (selected_theme (session_state rt)) as [k|] eqn:Hk; [|done].
  destruct (themes (config env) !! k) as [tc|]; [|done].
  unfold session_inv in Hinv. rewrite Hpage, Hk in Hinv. destruct Hinv as (Hu & Hs & Hth).
  destruct (st_button inp btn_learning_back); simpl.
  { by unfold session_inv. }
  destruct (st_button inp btn_to_quiz); simpl.
  { unfold session_inv. simpl. by rewrite Hk. }
  unfold session_inv. by rewrite Hpage, Hk.
Qed.

Lemma show_result_page_inv env inp rt :
  session_inv (config env) (session_state rt) ->
  user_email (session_state rt) ≠ None ->
  session_inv (config env) (session_state (show_result_page env inp rt).1).
Proof.
  intros Hinv Hu. unfold show_result_page, theme_of. script_unfold. simpl.
  destruct (selected_theme (session_state rt)) as [k|] eqn:Hk; [|done].
  destruct (themes (config env) !! k) as [tc|]; [|done].
  destruct (quiz_time_spent (session_state rt)) as [t|]; [|done].
  destruct (quiz_score (session_state rt)) as [score|] eqn:Hs; [|done].
  assert (∀ rt1 : Runtime,
    session_state rt1 = session_state rt ->
    session_inv (config env)
      (session_state
         (match (if st_button inp btn_result_dashboard then leave_result else mret tt) rt1 with
          | (rt', Done _) =>
              (if st_button inp btn_result_another then leave_result else mret tt) rt'
          | (rt', Stop sig) => (rt', Stop sig)
          end).1)) as Hnavigate.
  { intros rt1 Heq. unfold leave_result. script_unfold.
    destruct (st_button inp btn_result_dashboard); simpl.
    { rewrite Heq. by unfold session_inv. }
    destruct (st_button inp btn_result_another); simpl.
    { rewrite Heq. by unfold session_inv. }
    by rewrite Heq. }
  destruct (passed score (passing_score tc)); simpl.
  { by apply Hnavigate. }
  destruct (send_on_retake_needed (email_settings (config env))); simpl.
  - rewrite notify_all. simpl. by apply Hnavigate.
  - by apply Hnavigate.
Qed.

(** The submit branch keeps the logs' owner and the theme, and when it
    gets past the scoring it leaves the session on the result page. *)
Lemma submit_inv env inp tc questions elapsed rt :
  user_email (session_state rt) ≠ None ->
  theme_enabled (config env) (selected_theme (session_state rt)) ->
  session_inv (config env) (session_state rt) ->
  session_inv (config env) (session_state (submit env inp tc questions elapsed rt).1).
Proof.
  intros Hu Hth Hinv. unfold submit, save_to_google_sheets. script_unfold. simpl.
  destruct (compute_score _ _) as [e|score]; [done|].
  destruct (int_of_float elapsed) as [e|t]; [done|]. simpl.
  destruct (sink_up inp); simpl;
    (destruct (send_on_completion (email_settings (config env)));
       [rewrite notify_all|]; simpl; by unfold session_inv).
Qed.

(** With a start time in the session the elapsed time is always
    computed: neither divisor is zero. *)
Lemma elapsed_minutes_total now t0 :
  ∃ elapsed, elapsed_minutes now (Some t0) = mret elapsed.
Proof.
  unfold elapsed_minutes, int_truediv, float_truediv_int.
  change (1000000 =? 0) with false. change (60 =? 0) with false.
  eexists. reflexivity.
Qed.

Lemma show_quiz_page_inv env inp rt :
  session_inv (config env) (session_state rt) ->
  current_page (session_state rt) = Quiz ->
  session_inv (config env) (session_state (show_quiz_page env inp rt).1).
Proof.
  intros Hinv Hpage.
  assert (user_email (session_state rt) ≠ None
          ∧ theme_enabled (config env) (selected_theme (session_state rt)))
    as [Hu Hth].
  { unfold session_inv in Hinv. rewrite Hpage in Hinv. by destruct Hinv as (? & ? & ?). }
  unfold show_quiz_page, load_questions, theme_of.
  script_unfold. simpl.
  destruct (selected_theme (session_state rt)) as [k|] eqn:Hk; [|done].
  destruct (themes (config env) !! k) as [tc|] eqn:Htc; [|done].
  destruct (start_time (session_state rt)) as [t0|]; [|done].
  destruct (elapsed_minutes_total (clock inp) t0) as [elapsed ->].
  script_unfold. simpl.
  destruct (float_gt_zero _); [|by apply show_result_page_inv].
  destruct (st_button inp btn_quiz_back_top); simpl.
  { unfold session_inv in *. simpl. rewrite Hpage in Hinv. by rewrite Hk in *. }
  destruct (question_files env (questions_path tc)) as [questions|]; [|done].
  destruct (for_each (enumerate1 questions) (record_answer inp) rt) as [rt1 r1] eqn:Hloop.
  apply record_answers_frame in Hloop as (Hnav & _ & _ & _).
  assert (session_inv (config env) (session_state rt1)) as Hinv1
    by by eapply session_inv_nav.
  injection Hnav as He1 _ Hp1 Ht1 _ _ _.
  destruct r1 as [[]|sig]; [|done].
  destruct (st_button inp btn_quiz_back_bottom); simpl.
  { unfold session_inv in *. simpl. rewrite Hp1, Hpage in Hinv1. done. }
  destruct (st_button inp btn_submit); [|done].
  apply submit_inv; [by rewrite He1|by rewrite Ht1, Hk|done].
Qed.

(** Every run keeps the invariant. *)
Lemma main_inv env inp rt :
  session_inv (config env) (session_state rt) ->
  session_inv (config env) (session_state (main env inp rt).1).
Proof.
  intros Hinv. unfold main. script_unfold. simpl.
  case_bool_decide as Hlogin.
  { by apply show_login_page_inv. }
  destruct (current_page (session_state rt)) eqn:Hpage.
  - done.
  - by apply show_dashboard_inv.
  - by apply show_learning_page_inv.
  - by apply show_quiz_page_inv.
  - apply show_result_page_inv; [done|]. intros ?. apply Hlogin. by right.
Qed.

Lemma reachable_inv env rt :
  reachable env rt -> session_inv (config env) (session_state rt).
Proof.
  induction 1 as [|rt inp _ IH].
  - apply session_inv_init.
  - by apply main_inv.
Qed.

(** ** The session does not depend on the collaborators *)

Lemma indep_ret {A} (a : A) : indep (mret a) (mret a).
Proof. by intros rt rt' H. Qed.

Lemma indep_raise {A} e : indep (@raise A e) (raise e).
Proof. by intros rt rt' H. Qed.

Lemma indep_rerun : indep st_rerun st_rerun.
Proof. by intros rt rt' H. Qed.

Lemma indep_get : indep get_session get_session.
Proof. intros rt rt' H. unfold get_session. simpl. split; [done|]. by rewrite H. Qed.

Lemma indep_assign f : indep (assign f) (assign f).
Proof. intros rt rt' H. unfold assign, agree in *. simpl. by rewrite H. Qed.

Lemma indep_bind {A B} (m m' : Script A) (f f' : A -> Script B) :
  indep m m' -> (∀ a, indep (f a) (f' a)) -> indep (m ≫= f) (m' ≫= f').
Proof.
  intros Hm Hf rt rt' H. unfold mbind, Script_bind.
  destruct (Hm rt rt' H) as [Hs Hr].
  destruct (m rt) as [rt1 r1], (m' rt') as [rt1' r1']. simpl in *. subst r1'.
  destruct r1 as [a|sig]; [by apply Hf|done].
Qed.

Lemma indep_for_each {A} (l : list A) (body body' : A -> Script unit) :
  (∀ x, indep (body x) (body' x)) -> indep (for_each l body) (for_each l body').
Proof.
  intros Hbody. induction l as [|x l IH]; simpl.
  - apply indep_ret.
  - apply indep_bind; [apply Hbody|by intros _].
Qed.

(** The value of [send_email_notification] is dropped by its callers. *)
Lemma indep_notify inp inp' t admin : indep (notify inp t admin) (notify inp' t admin).
Proof. by intros rt rt' H. Qed.

(** So is the value of [save_to_google_sheets]. *)
Lemma indep_save {A} inp inp' email name theme_title score time_spent answers
    (k k' : Script A) :
  indep k k' ->
  indep (save_to_google_sheets inp email name theme_title score time_spent answers;; k)
        (save_to_google_sheets inp' email name theme_title score time_spent answers;; k').
Proof.
  intros Hk rt rt' H. unfold save_to_google_sheets, mbind, Script_bind.
  destruct (sink_up inp), (sink_up inp'); by apply Hk.
Qed.

Ltac indep_step :=
  first
    [ apply indep_ret | apply indep_raise | apply indep_rerun
    | apply indep_get | apply indep_assign
    | apply indep_save
    | apply indep_for_each; intros ?
    | apply indep_notify
    | apply indep_bind; [|intros ?]
    | match goal with
      | |- indep (if ?b then _ else _) (if ?b then _ else _) => destruct b
      | |- indep (match ?x with _ => _ end) (match ?x with _ => _ end) => destruct x
      end ].

Section Collaborators.

Variables (env : Env) (inp : Input) (up : bool) (smtp : string -> bool).

(** The widget values of the run do not change with the collaborators. *)
Ltac same_widgets :=
  repeat match goal with
    | |- context [st_button (with_collaborators up smtp inp) ?b] =>
        change (st_button (with_collaborators up smtp inp) b) with (st_button inp b)
    end;
  change (login_email (with_collaborators up smtp inp)) with (login_email inp);
  change (clock (with_collaborators up smtp inp)) with (clock inp);
  change (start_button (with_collaborators up smtp inp)) with (start_button inp);
  change (record_answer (with_collaborators up smtp inp)) with (record_answer inp).

Lemma indep_show_login_page :
  indep (show_login_page env inp)
        (show_login_page env (with_collaborators up smtp inp)).
Proof. unfold show_login_page. same_widgets. repeat indep_step. Qed.

Lemma indep_show_dashboard :
  indep (show_dashboard env inp)
        (show_dashboard env (with_collaborators up smtp inp)).
Proof.
  unfold show_dashboard. same_widgets. repeat indep_step.
  unfold start_button. destruct x as [k tc]. repeat indep_step.
Qed.

Lemma indep_show_learning_page :
  indep (show_learning_page env inp)
        (show_learning_page env (with_collaborators up smtp inp)).
Proof. unfold show_learning_page, theme_of. same_widgets. repeat indep_step. Qed.

Lemma indep_show_result_page :
  indep (show_result_page env inp)
        (show_result_page env (with_collaborators up smtp inp)).
Proof.
  unfold show_result_page, theme_of, leave_result. same_widgets.
  repeat indep_step.
Qed.

Lemma indep_submit tc questions elapsed :
  indep (submit env inp tc questions elapsed)
        (submit env (with_collaborators up smtp inp) tc questions elapsed).
Proof. unfold submit, try_py. repeat indep_step. Qed.

Lemma indep_show_quiz_page :
  indep (show_quiz_page env inp)
        (show_quiz_page env (with_collaborators up smtp inp)).
Proof.
  unfold show_quiz_page, load_questions, theme_of, elapsed_minutes, try_py.
  same_widgets.
  repeat first [apply indep_show_result_page | apply indep_submit | indep_step].
  unfold record_answer. destruct x as [i q]. repeat indep_step.
Qed.

Lemma indep_main :
  indep (main env inp) (main env (with_collaborators up smtp inp)).
Proof.
  unfold main.
  repeat first
    [ apply indep_show_login_page | apply indep_show_dashboard
    | apply indep_show_learning_page | apply indep_show_quiz_page
    | apply indep_show_result_page | indep_step ].
Qed.

End Collaborators.

Lemma reachable_interact env inp rt :
  reachable env rt -> reachable env (interact env inp rt).
Proof.
  intros H. unfold interact.
  pose proof (reachable_run env rt inp H) as H1.
  destruct (main env inp rt) as [rt1 [[]|[|e]]]; simpl in *; try done.
  by apply reachable_run.
Qed.

Lemma reachable_interactions env inps rt :
  reachable env rt -> reachable env (interactions env inps rt).
Proof.
  revert rt. induction inps as [|inp inps IH]; intros rt H; simpl; [done|].
  by apply IH, reachable_interact.
Qed.


(** * The claims *)

(** C1 (fails on the code).  The score is not confined to [0,100]: the
    count of correct answers is taken over the whole answers dictionary,
    and leaving the quiz of a two-question theme through the learning page
    keeps its two entries.  Submitting the one-question theme afterwards
    gives [int(2 / 1 * 100) = 200]. *)
Lemma stale_answers_score_200 :
  let rt := interactions Sample.env (Sample.visit_basics ++ Sample.then_ethics)
              initial_runtime in
  current_page (session_state rt) = Result
  ∧ (question_files Sample.env "ethics.json" = Some [Sample.yes_no 0])
  ∧ map_to_list (quiz_answers (session_state rt)) = [(2%nat, true); (1%nat, true)]
  ∧ quiz_score (session_state rt) = Some 200.
Proof. vm_compute. auto. Qed.

(** C4 (fails on the code).  The score is the truncation of a double
    product, not the floor of the exact quotient: 29 correct answers out
    of 50 give 57, where [floor (29 / 50 * 100) = 58]; and the count runs
    over every entry of the dictionary, also those beyond the bank.  The
    example of the claim, 3 out of 4, does give 75. *)
Lemma score_29_of_50_is_57 :
  let rt := interactions Sample.env [Sample.click_29 btn_submit (2 * Sample.second)]
              (Sample.on_quiz "survey") in
  correct_count (quiz_answers (session_state rt)) = 29
  ∧ quiz_score (session_state rt) = Some 57
  ∧ 29 * 100 / 50 = 58
  ∧ compute_score (list_to_map [(1%nat, true); (2%nat, true)]) [Sample.yes_no 0] = inr 200
  ∧ compute_score (list_to_map [(1%nat, true); (2%nat, true); (3%nat, false); (4%nat, true)])
      (replicate 4 (Sample.yes_no 0)) = inr 75.
Proof. vm_compute. auto 6. Qed.

(** C5 (fails on the code).  With an empty question bank the submit
    branch evaluates [correct_count / len(questions)] and the run ends in
    [ZeroDivisionError]; nothing is assigned or logged. *)
Lemma empty_bank_divides_by_zero :
  let rt := Sample.on_quiz "draft" in
  question_files Sample.env "draft.json" = Some []
  ∧ main Sample.env (Sample.click btn_submit (2 * Sample.second)) rt
    = (rt, Stop (Raised ZeroDivisionError)).
Proof. vm_compute. auto. Qed.

(** In a runtime the script can reach, a run of the quiz page past the
    time limit ends in an exception and changes nothing: no score is
    computed, no row is appended, no message is sent, and the page stays
    the quiz page. *)
Lemma timed_out_quiz_run_raises env inp rt k tc t0 elapsed :
  reachable env rt ->
  current_page (session_state rt) = Quiz ->
  selected_theme (session_state rt) = Some k ->
  themes (config env) !! k = Some tc ->
  start_time (session_state rt) = Some t0 ->
  elapsed_minutes (clock inp) (Some t0) = mret elapsed ->
  float_gt_zero (int_sub_float (time_limit_minutes tc) elapsed) = false ->
  (main env inp rt).1 = rt ∧ ∃ e, (main env inp rt).2 = Stop (Raised e).
Proof.
  intros Hreach Hpage Hk Htc Ht0 Hel Hout.
  apply reachable_inv in Hreach. unfold session_inv in Hreach.
  rewrite Hpage in Hreach. destruct Hreach as (Hu & Hs & _).
  unfold main. script_unfold. simpl. rewrite Hpage.
  case_bool_decide as Hlogin; [by destruct Hlogin|].
  unfold show_quiz_page, theme_of. script_unfold. simpl.
  rewrite Hk, Htc, Ht0, Hel. script_unfold. simpl. rewrite Hout.
  unfold show_result_page, theme_of. script_unfold. simpl.
  rewrite Hk, Htc, Hs.
  destruct (quiz_time_spent (session_state rt)); simpl; eauto.
Qed.

(** C2 (fails on the code).  Ten minutes after the start, on a limit of
    ten minutes, the run of the quiz page calls the result page instead
    of the submit branch: it ends in [AttributeError] with the runtime
    unchanged, while the submit branch on the same runtime, answers and
    clock reading scores 100, records ten minutes and appends a row. *)
Lemma time_exceeded_run_is_not_a_submit :
  let rt := Sample.on_quiz "basics" in
  let inp := Sample.click btn_submit (10 * Sample.minute) in
  main Sample.env inp rt = (rt, Stop (Raised AttributeError))
  ∧ ∃ elapsed rt',
      elapsed_minutes (clock inp) (start_time (session_state rt)) rt = (rt, Done elapsed)
      ∧ submit Sample.env inp (Sample.theme "Basics" "basics.json")
          [Sample.yes_no 0; Sample.yes_no 0] elapsed rt = (rt', Stop RerunException)
      ∧ current_page (session_state rt') = Result
      ∧ quiz_score (session_state rt') = Some 100
      ∧ quiz_time_spent (session_state rt') = Some 10
      ∧ length (worksheet rt') = 1%nat
      ∧ worksheet rt = [].
Proof.
  split; [by vm_compute|].
  eexists _, _. split; [by vm_compute|]. split; [by vm_compute|].
  by vm_compute.
Qed.





(** C9.  In every runtime the script can reach, a session on the
    learning page or on the quiz page holds a theme key that is in the
    configuration with [enabled] set to true. *)
Theorem learning_and_quiz_hold_enabled_theme env rt :
  reachable env rt ->
  current_page (session_state rt) = Learning ∨ current_page (session_state rt) = Quiz ->
  ∃ k tc, selected_theme (session_state rt) = Some k
          ∧ themes (config env) !! k = Some tc
          ∧ enabled tc = Some true.
Proof.
  intros Hreach Hpage. apply reachable_inv in Hreach. unfold session_inv in Hreach.
  destruct Hpage as [Hpage|Hpage]; rewrite Hpage in Hreach;
    by destruct Hreach as (_ & _ & Hth).
Qed.

Lemma learning_and_quiz_hold_enabled_theme_witness :
  ∃ k tc, selected_theme (session_state (Sample.on_quiz "basics")) = Some k
          ∧ themes (config Sample.env) !! k = Some tc
          ∧ enabled tc = Some true.
Proof.
  apply (learning_and_quiz_hold_enabled_theme Sample.env (Sample.on_quiz "basics")).
  - apply reachable_interactions, reachable_init.
  - right. vm_compute. reflexivity.
Defined.

(** A run of the result page on a failed attempt, with retake messages
    switched on: one call of the transport per administrator, whatever
    was clicked; and without a click the session stays as it is. *)
Lemma failed_result_run env inp rt k tc score t :
  current_page (session_state rt) = Result ->
  user_email (session_state rt) ≠ None ->
  selected_theme (session_state rt) = Some k ->
  themes (config env) !! k = Some tc ->
  quiz_score (session_state rt) = Some score ->
  quiz_time_spent (session_state rt) = Some t ->
  score < passing_score tc ->
  send_on_retake_needed (email_settings (config env)) = true ->
  outbox (main env inp rt).1 =
    outbox rt ++ batch inp
      (retake_notice (user_name (session_state rt)) (user_email (session_state rt))
         (title tc) score (passing_score tc) t)
      (admins (config env))
  ∧ (clicked inp = None -> session_state (main env inp rt).1 = session_state rt).
Proof.
  intros Hpage Hu Hk Htc Hs Ht Hlt Hflag.
  unfold main. script_unfold. simpl. rewrite Hpage.
  case_bool_decide as Hlogin; [by destruct Hlogin|].
  unfold show_result_page, theme_of. script_unfold. simpl.
  rewrite Hk, Htc, Ht, Hs, Hflag.
  assert (passed score (passing_score tc) = false) as ->.
  { unfold passed. rewrite Z.geb_leb. apply Z.leb_gt. lia. }
  rewrite notify_all. simpl. fold (batch inp). unfold leave_result, st_button.
  script_unfold. split.
  - repeat case_bool_decide; done.
  - intros ->. rewrite !bool_decide_eq_false_2 by done. done.
Qed.

(** C10.  On the result page of a failed attempt, with retake messages
    switched on, every run hands the retake message to the transport
    once per administrator: a single run, whatever was clicked, adds one
    batch, and [n] runs without a click add [n] batches. *)
Theorem retake_notice_on_every_render env inp rt k tc score t :
  current_page (session_state rt) = Result ->
  user_email (session_state rt) ≠ None ->
  selected_theme (session_state rt) = Some k ->
  themes (config env) !! k = Some tc ->
  quiz_score (session_state rt) = Some score ->
  quiz_time_spent (session_state rt) = Some t ->
  score < passing_score tc ->
  send_on_retake_needed (email_settings (config env)) = true ->
  let notice :=
    retake_notice (user_name (session_state rt)) (user_email (session_state rt))
      (title tc) score (passing_score tc) t in
  outbox (main env inp rt).1 = outbox rt ++ batch inp notice (admins (config env))
  ∧ (clicked inp = None ->
     ∀ n, outbox (renders env inp n rt) =
          outbox rt ++ mjoin (replicate n (batch inp notice (admins (config env))))).
Proof.
  intros Hpage Hu Hk Htc Hs Ht Hlt Hflag notice. split.
  { by apply (failed_result_run env inp rt k tc score t). }
  intros Hclick n. subst notice.
  remember (session_state rt) as s eqn:Hsess.
  revert rt Hsess. induction n as [|n IH]; intros rt Hsess; simpl.
  { by rewrite app_nil_r. }
  subst s.
  destruct (failed_result_run env inp rt k tc score t) as [Hout Hkeep]; try done.
  rewrite IH by (symmetry; by apply Hkeep).
  rewrite Hout. by rewrite <- app_assoc.
Qed.

Lemma retake_notice_on_every_render_witness :
  let rt := interactions Sample.env
              [Sample.click_29 btn_submit (2 * Sample.second)] (Sample.on_quiz "survey") in
  let inp := rerun_input (Sample.click btn_submit (3 * Sample.second)) in
  let notice := retake_notice (Some "User") (Some "user@example.com") "Survey" 57 80 0 in
  outbox (main Sample.env inp rt).1 = outbox rt ++ batch inp notice ["admin@example.com"]
  ∧ (clicked inp = None ->
     ∀ n, outbox (renders Sample.env inp n rt) =
          outbox rt ++ mjoin (replicate n (batch inp notice ["admin@example.com"]))).
Proof.
  apply (retake_notice_on_every_render Sample.env
           (rerun_input (Sample.click btn_submit (3 * Sample.second)))
           (interactions Sample.env
              [Sample.click_29 btn_submit (2 * Sample.second)] (Sample.on_quiz "survey"))
           "survey" (Sample.theme "Survey" "survey.json") 57 0);
    vm_compute; congruence.
Defined.

(** One interaction ends with the same session whatever the worksheet
    and the mail transport do. *)
Lemma interact_session_indep env inp rt up smtp :
  session_state (interact env (with_collaborators up smtp inp) rt)
  = session_state (interact env inp rt).
Proof.
  unfold interact.
  destruct (indep_main env inp up smtp rt rt eq_refl) as [Hs Hr].
  destruct (main env inp rt) as [rt1 r1],
           (main env (with_collaborators up smtp inp) rt) as [rt1' r1'].
  simpl in *. subst r1'.
  destruct r1 as [[]|[|e]]; try done.
  change (rerun_input (with_collaborators up smtp inp))
    with (with_collaborators up smtp (rerun_input inp)).
  symmetry. by apply (indep_main env (rerun_input inp) up smtp rt1 rt1').
Qed.

(** What the submit branch does once the score and the elapsed minutes
    are computed. *)
Lemma submit_spec env inp tc questions elapsed rt score t :
  compute_score (quiz_answers (session_state rt)) questions = inr score ->
  int_of_float elapsed = inr t ->
  let s' := set_current_page Result
              (set_quiz_time_spent (Some t)
                 (set_quiz_score (Some score) (session_state rt))) in
  submit env inp tc questions elapsed rt =
  ({| session_state := s';
      worksheet :=
        worksheet rt ++
        (if sink_up inp then
           [attempt_row (sheet_clock inp) (user_email s') (user_name s') (title tc)
              score (pretty t +:+ "分") (answers_list (quiz_answers s') questions)]
         else []);
      outbox :=
        outbox rt ++
        (if send_on_completion (email_settings (config env)) then
           batch inp
             (completion_notice (user_name s') (user_email s') (title tc) score t
                (pass_status score (passing_score tc)))
             (admins (config env))
         else []) |},
   Stop RerunException).
Proof.
  intros Hscore Ht. unfold submit, save_to_google_sheets. script_unfold. simpl.
  rewrite Hscore, Ht. simpl.
  destruct (sink_up inp); simpl;
    (destruct (send_on_completion (email_settings (config env)));
       [rewrite notify_all|]; simpl; by rewrite ?app_nil_r).
Qed.

(** C7.  Whatever the worksheet and the mail transport do, an
    interaction ends with the same session as when both work; and a
    submission whose score is computed ends on the result page with that
    score, also when every call of both fails. *)
Theorem collaborator_failures_do_not_block_result
    env inp rt tc questions elapsed score t :
  compute_score (quiz_answers (session_state rt)) questions = inr score ->
  int_of_float elapsed = inr t ->
  (∀ up smtp,
     session_state (interact env (with_collaborators up smtp inp) rt)
     = session_state (interact env inp rt))
  ∧ (∀ up smtp,
       let r := submit env (with_collaborators up smtp inp) tc questions elapsed rt in
       r.2 = Stop RerunException
       ∧ current_page (session_state r.1) = Result
       ∧ quiz_score (session_state r.1) = Some score
       ∧ session_state r.1 = session_state (submit env inp tc questions elapsed rt).1).
Proof.
  intros Hscore Ht. split.
  - intros up smtp. apply interact_session_indep.
  - intros up smtp.
    rewrite (submit_spec env (with_collaborators up smtp inp) tc questions elapsed rt score t)
      by done.
    rewrite (submit_spec env inp tc questions elapsed rt score t) by done.
    done.
Qed.

Lemma collaborator_failures_do_not_block_result_witness :
  let inp := Sample.click btn_submit (2 * Sample.second) in
  let rt := Sample.on_quiz "basics" in
  let tc := Sample.theme "Basics" "basics.json" in
  let questions := [Sample.yes_no 0; Sample.yes_no 0] in
  (∀ up smtp,
     session_state (interact Sample.env (with_collaborators up smtp inp) rt)
     = session_state (interact Sample.env inp rt))
  ∧ (∀ up smtp,
       let r := submit Sample.env (with_collaborators up smtp inp) tc questions
                  (float_of_int 0) rt in
       r.2 = Stop RerunException
       ∧ current_page (session_state r.1) = Result
       ∧ quiz_score (session_state r.1) = Some 100
       ∧ session_state r.1
         = session_state (submit Sample.env inp tc questions (float_of_int 0) rt).1).
Proof.
  apply (collaborator_failures_do_not_block_result Sample.env
           (Sample.click btn_submit (2 * Sample.second)) (Sample.on_quiz "basics")
           (Sample.theme "Basics" "basics.json") [Sample.yes_no 0; Sample.yes_no 0]
           (float_of_int 0) 100 0).
  - vm_compute. reflexivity.
  - vm_compute. reflexivity.
Defined.

(** C8 (the claim as stated fails).  The memo cell of the appended row
    holds the one-character text "-", not the empty text; and a
    submission made while the worksheet fails reaches the result page and
    appends no row. *)
Lemma memo_is_dash_and_failed_sink_appends_nothing :
  let rt := Sample.on_quiz "basics" in
  let inp := Sample.click btn_submit (2 * Sample.second) in
  let down := with_collaborators false (fun _ => false) inp in
  worksheet rt = []
  ∧ (∃ row, worksheet (interact Sample.env inp rt) = [row]
            ∧ last row = Some (cell_text "-"))
  ∧ cell_text "-" ≠ cell_text ""
  ∧ current_page (session_state (interact Sample.env down rt)) = Result
  ∧ quiz_score (session_state (interact Sample.env down rt)) = Some 100
  ∧ worksheet (interact Sample.env down rt) = [].
Proof.
  split; [by vm_compute|]. split.
  { eexists. split; by vm_compute. }
  repeat split; by vm_compute.
Qed.

(** C8 (amended).  A submission whose score and elapsed minutes are
    computed appends exactly one row when the worksheet works and none
    when it fails.  The row holds, in order: the time stamp, the user's
    mail address, the user's name, the theme title, the score, the
    elapsed minutes followed by "分", one mark per question of the bank
    ("○" when the recorded answer is true, "✕" when it is false or
    missing), and the memo cell "-". *)
Theorem submit_appends_attempt_row env inp tc questions elapsed rt score t :
  compute_score (quiz_answers (session_state rt)) questions = inr score ->
  int_of_float elapsed = inr t ->
  let s := session_state rt in
  let marks :=
    (fun i : nat =>
       cell_text (if default false (quiz_answers s !! (i + 1)%nat) then "○" else "✕"))
    <$> seq 0 (length questions) in
  worksheet (submit env inp tc questions elapsed rt).1 =
    (if sink_up inp then
       worksheet rt ++
       [[cell_time (sheet_clock inp); opt_cell (user_email s); opt_cell (user_name s);
         cell_text (title tc); cell_int score; cell_text (pretty t +:+ "分")]
        ++ marks ++ [cell_text "-"]]
     else worksheet rt)
  ∧ length marks = length questions.
Proof.
  intros Hscore Ht s marks. split.
  - rewrite (submit_spec env inp tc questions elapsed rt score t) by done. simpl.
    destruct (sink_up inp); [|by rewrite app_nil_r].
    f_equal. unfold attempt_row, answers_list. simpl.
    do 7 f_equal. subst marks. by rewrite <- list_fmap_compose.
  - subst marks. by rewrite length_fmap, length_seq.
Qed.

Lemma submit_appends_attempt_row_witness :
  let inp := Sample.click btn_submit (2 * Sample.second) in
  let rt := Sample.on_quiz "basics" in
  let tc := Sample.theme "Basics" "basics.json" in
  let questions := [Sample.yes_no 0; Sample.yes_no 0] in
  let s := session_state rt in
  let marks :=
    (fun i : nat =>
       cell_text (if default false (quiz_answers s !! (i + 1)%nat) then "○" else "✕"))
    <$> seq 0 (length questions) in
  worksheet (submit Sample.env inp tc questions (float_of_int 0) rt).1 =
    (if sink_up inp then
       worksheet rt ++
       [[cell_time (sheet_clock inp); opt_cell (user_email s); opt_cell (user_name s);
         cell_text (title tc); cell_int 100; cell_text (pretty 0 +:+ "分")]
        ++ marks ++ [cell_text "-"]]
     else worksheet rt)
  ∧ length marks = length questions.
Proof.
  apply (submit_appends_attempt_row Sample.env
           (Sample.click btn_submit (2 * Sample.second))
           (Sample.theme "Basics" "basics.json") [Sample.yes_no 0; Sample.yes_no 0]
           (float_of_int 0) (Sample.on_quiz "basics") 100 0).
  - vm_compute. reflexivity.
  - vm_compute. reflexivity.
Defined.

(** * Further properties of the script *)

(** ** Roster and login *)

Lemma filter_roster_none (email : string) (rows : list (string * string)) :
  email ∉ rows.*1 -> filter (fun row => row.1 = email) rows = [].
Proof.
  induction rows as [|row rows IH]; [done|].
  rewrite fmap_cons, not_elem_of_cons. intros [Hne Hnot].
  rewrite filter_cons_False by (simpl; congruence). by apply IH.
Qed.

(** X1.  [authenticate_user]: the first roster row with the mail address
    decides the name, also when the address is listed again below. *)
Theorem authenticate_user_first_match env email pre full_name post :
  employees_csv env = Some (pre ++ (email, full_name) :: post) ->
  email ∉ pre.*1 ->
  authenticate_user env email = Some full_name.
Proof.
  intros Hrows Hpre. unfold authenticate_user. rewrite Hrows.
  rewrite filter_app, filter_roster_none by done. simpl.
  by rewrite filter_cons_True.
Qed.

Lemma authenticate_user_first_match_witness :
  authenticate_user Demo.env "a@example.com" = Some "Aoki".
Proof.
  apply (authenticate_user_first_match Demo.env "a@example.com" []
           "Aoki" [("b@example.com", "Baba"); ("a@example.com", "Abe")]).
  - reflexivity.
  - simpl. apply not_elem_of_nil.
Defined.


Lemma start_button_click inp k k' tc rt :
  clicked inp = Some (btn_start k) ->
  start_button inp (k', tc) rt =
  if bool_decide (k = k') then
    ({| session_state := started k (clock inp) (session_state rt);
        worksheet := worksheet rt; outbox := outbox rt |}, Stop RerunException)
  else (rt, Done tt).
Proof.
  intros Hclick. unfold start_button, st_button. rewrite Hclick.
  destruct (decide (k = k')) as [->|Hne].
  - rewrite !bool_decide_eq_true_2 by done. by script_unfold.
  - rewrite !bool_decide_eq_false_2 by congruence. done.
Qed.

(** The loop over the start buttons, by what was clicked: the button of
    a listed theme starts that theme, anything else does nothing. *)
Lemma start_buttons_click inp l rt k :
  clicked inp = Some (btn_start k) ->
  for_each l (start_button inp) rt =
  if bool_decide (k ∈ l.*1) then
    ({| session_state := started k (clock inp) (session_state rt);
        worksheet := worksheet rt; outbox := outbox rt |}, Stop RerunException)
  else (rt, Done tt).
Proof.
  intros Hclick. induction l as [|[k' tc] l IH].
  - rewrite bool_decide_eq_false_2; [reflexivity|]. apply not_elem_of_nil.
  - rewrite fmap_cons. cbn [for_each fst].
    unfold mbind, Script_bind.
    rewrite (start_button_click inp k k' tc rt Hclick).
    destruct (decide (k = k')) as [->|Hne].
    + rewrite (bool_decide_eq_true_2 (k' = k')) by done.
      rewrite bool_decide_eq_true_2; [done|by left].
    + rewrite (bool_decide_eq_false_2 (k = k')) by done.
      rewrite IH.
      destruct (decide (k ∈ l.*1)) as [Hin|Hnot].
      * rewrite (bool_decide_eq_true_2 _ Hin).
        rewrite bool_decide_eq_true_2; [done|by right].
      * rewrite (bool_decide_eq_false_2 _ Hnot).
        rewrite bool_decide_eq_false_2; [done|].
        rewrite not_elem_of_cons. done.
Qed.

Lemma start_buttons_idle inp l rt :
  (∀ k, clicked inp ≠ Some (btn_start k)) ->
  for_each l (start_button inp) rt = (rt, Done tt).
Proof.
  intros Hclick. induction l as [|[k' tc] l IH]; [done|].
  cbn [for_each]. unfold mbind, Script_bind.
  assert (start_button inp (k', tc) rt = (rt, Done tt)) as ->; [|done].
  unfold start_button, st_button.
  by rewrite bool_decide_eq_false_2 by apply Hclick.
Qed.

Lemma enabled_themes_elem cfg k :
  k ∈ (map_to_list (get_enabled_themes cfg)).*1
  ↔ ∃ tc, themes cfg !! k = Some tc ∧ enabled tc = Some true.
Proof.
  split.
  - intros Hin. apply list_elem_of_fmap in Hin as ([k' tc] & -> & Hin).
    exists tc. by apply enabled_themes_lookup.
  - intros (tc & Hk & He). apply list_elem_of_fmap. exists (k, tc). split; [done|].
    apply elem_of_map_to_list. unfold get_enabled_themes.
    apply map_lookup_filter_Some. split; [done|]. simpl.
    unfold is_enabled. by rewrite He.
Qed.

(** A run of the dashboard without a click changes nothing. *)
Lemma show_dashboard_idle env inp rt :
  clicked inp = None -> show_dashboard env inp rt = (rt, Done tt).
Proof.
  intros Hclick. unfold show_dashboard, st_button. rewrite Hclick.
  rewrite (bool_decide_eq_false_2 (None = Some btn_logout)) by done.
  script_unfold. simpl.
  case_bool_decide; [done|].
  apply start_buttons_idle. intros k. by rewrite Hclick.
Qed.

(** X3.  Logging in with a mail address of the roster: the session gets the
    address and the first matching name and moves to the dashboard;
    nothing else in the session changes (answers left in it stay), and no
    collaborator is called. *)
Theorem login_known_user env inp rt full_name :
  current_page (session_state rt) = Login ->
  clicked inp = Some btn_login ->
  login_email inp ≠ "" ->
  authenticate_user env (login_email inp) = Some full_name ->
  interact env inp rt =
  {| session_state :=
       set_current_page Dashboard
         (set_user_name (Some full_name)
            (set_user_email (Some (login_email inp)) (session_state rt)));
     worksheet := worksheet rt; outbox := outbox rt |}.
Proof.
  intros Hpage Hclick Hne Hauth. unfold interact, main. script_unfold. simpl.
  rewrite Hpage. rewrite bool_decide_eq_true_2 by by left.
  unfold show_login_page, st_button. rewrite Hclick.
  rewrite (bool_decide_eq_true_2 (Some _ = Some _)) by done.
  rewrite (bool_decide_eq_false_2 (login_email inp = "")) by done. rewrite Hauth.
  script_unfold. simpl.
  by rewrite show_dashboard_idle.
Qed.

Lemma login_known_user_witness :
  interact Demo.env (Demo.click (Some btn_login) "a@example.com" 0) initial_runtime =
  {| session_state :=
       set_current_page Dashboard
         (set_user_name (Some "Aoki")
            (set_user_email (Some "a@example.com") init_session_state));
     worksheet := []; outbox := [] |}.
Proof.
  apply (login_known_user Demo.env (Demo.click (Some btn_login) "a@example.com" 0)
           initial_runtime "Aoki").
  - reflexivity.
  - reflexivity.
  - discriminate.
  - vm_compute. reflexivity.
Defined.

(** X4.  A login attempt with an empty field, with an address that is not in
    the roster, or while the roster cannot be read changes nothing and
    does not rerun: the login page is shown again. *)
Theorem login_rejected env inp rt :
  current_page (session_state rt) = Login ∨ user_email (session_state rt) = None ->
  login_email inp = "" ∨ authenticate_user env (login_email inp) = None ->
  main env inp rt = (rt, Done tt).
Proof.
  intros Hpage Hbad. unfold main. script_unfold. simpl.
  rewrite bool_decide_eq_true_2 by done.
  unfold show_login_page. destruct (st_button inp btn_login); [|done].
  case_bool_decide as Hempty; [done|].
  destruct Hbad as [Hempty' | Hnone]; [done|]. by rewrite Hnone.
Qed.

Lemma login_rejected_witness :
  main Demo.env (Demo.click (Some btn_login) "A@example.com" 0) initial_runtime
  = (initial_runtime, Done tt).
Proof.
  apply (login_rejected Demo.env (Demo.click (Some btn_login) "A@example.com" 0)
           initial_runtime).
  - left. reflexivity.
  - right. vm_compute. reflexivity.
Defined.

(** ** Dashboard *)

(** X5.  The start button of theme [k] on the dashboard.  When [k] is in the
    configuration with [enabled] true, the run selects it, moves to the
    learning page, stores the clock reading as start time and asks for a
    rerun; the answers dictionary is not touched.  When [k] is unknown,
    switched off, or has no [enabled] key, the run changes nothing. *)
Theorem start_theme_click env inp rt k :
  current_page (session_state rt) = Dashboard ->
  user_email (session_state rt) ≠ None ->
  clicked inp = Some (btn_start k) ->
  ((∃ tc, themes (config env) !! k = Some tc ∧ enabled tc = Some true) ->
   main env inp rt =
   ({| session_state := started k (clock inp) (session_state rt);
       worksheet := worksheet rt; outbox := outbox rt |}, Stop RerunException))
  ∧ ((∀ tc, themes (config env) !! k = Some tc -> enabled tc ≠ Some true) ->
     main env inp rt = (rt, Done tt)).
Proof.
  intros Hpage Hu Hclick.
  assert (main env inp rt =
          if bool_decide (size (get_enabled_themes (config env)) = 0%nat)
          then (rt, Done tt)
          else for_each (map_to_list (get_enabled_themes (config env)))
                 (start_button inp) rt) as ->.
  { unfold main. script_unfold. simpl. rewrite Hpage.
    rewrite bool_decide_eq_false_2 by (by intros [|]).
    unfold show_dashboard, st_button. rewrite Hclick.
    rewrite (bool_decide_eq_false_2 (Some _ = Some btn_logout)) by done.
    script_unfold. simpl.
    by case_bool_decide. }
  rewrite (start_buttons_click inp _ rt k Hclick). split.
  - intros Hen. apply enabled_themes_elem in Hen as Hin.
    rewrite (bool_decide_eq_true_2 _ Hin).
    rewrite bool_decide_eq_false_2; [done|]. intros Hsize.
    apply map_size_empty_inv in Hsize. rewrite Hsize, map_to_list_empty in Hin.
    by apply elem_of_nil in Hin.
  - intros Hoff. case_bool_decide; [done|].
    rewrite bool_decide_eq_false_2; [done|]. intros Hin.
    apply enabled_themes_elem in Hin as (tc & Hk & He). by apply (Hoff tc).
Qed.

Lemma start_theme_click_witness :
  (let inp := Demo.click (Some (btn_start "open")) "" 5 in
   main Demo.env inp Demo.on_dashboard =
   ({| session_state := started "open" 5 (session_state Demo.on_dashboard);
       worksheet := []; outbox := [] |}, Stop RerunException))
  ∧ (let inp := Demo.click (Some (btn_start "unset")) "" 5 in
     main Demo.env inp Demo.on_dashboard = (Demo.on_dashboard, Done tt)).
Proof.
  split.
  - apply (start_theme_click Demo.env (Demo.click (Some (btn_start "open")) "" 5)
             Demo.on_dashboard "open"); try by vm_compute.
    exists (Demo.theme "open" (Some true)). by vm_compute.
  - apply (start_theme_click Demo.env (Demo.click (Some (btn_start "unset")) "" 5)
             Demo.on_dashboard "unset"); try by vm_compute.
    intros tc Htc. vm_compute in Htc. injection Htc as <-. by vm_compute.
Defined.

(** ** The question loop *)

(** [index] finds an element that is in the list, at or before any
    position that holds it. *)
Lemma list_index_lookup (a : string) (l : list string) (j : nat) :
  l !! j = Some a -> ∃ i, list_index a l = Some i ∧ (i ≤ j)%nat ∧ l !! i = Some a.
Proof.
  revert j. induction l as [|x l IH]; intros j Hj; [done|]. simpl.
  case_decide as Hx.
  - subst x. exists 0%nat. split; [done|]. split; [lia|done].
  - destruct j as [|j]; [by injection Hj|]. simpl in Hj.
    destruct (IH j Hj) as (i & -> & Hle & Hi).
    exists (S i). split; [done|]. split; [lia|done].
Qed.

(** Without repeated texts, [index] gives back the position. *)
Lemma list_index_NoDup (a : string) (l : list string) (j : nat) :
  NoDup l -> l !! j = Some a -> list_index a l = Some j.
Proof.
  intros Hnd Hj. destruct (list_index_lookup a l j Hj) as (i & Hi & _ & Hli).
  rewrite Hi. f_equal. by eapply NoDup_lookup.
Qed.

(** The question loop from ordinal [a] on: when every pick is an option
    of its question the loop completes, stores one answer per question
    and leaves the other entries of the dictionary alone. *)
Lemma record_answers_from inp (qs : list Question) (a : nat) rt :
  (∀ i q, qs !! i = Some q -> (radio inp (a + i) < length (options q))%nat) ->
  ∃ rt',
    for_each (zip (seq a (length qs)) qs) (record_answer inp) rt = (rt', Done tt)
    ∧ nav (session_state rt') = nav (session_state rt)
    ∧ logs rt' = logs rt
    ∧ (∀ i q, qs !! i = Some q ->
         ∃ answer ix,
           options q !! radio inp (a + i) = Some answer
           ∧ list_index answer (options q) = Some ix
           ∧ quiz_answers (session_state rt') !! (a + i)%nat
             = Some (bool_decide (Z.of_nat ix = correct_answer q)))
    ∧ (∀ j, (j < a ∨ a + length qs ≤ j)%nat ->
         quiz_answers (session_state rt') !! j = quiz_answers (session_state rt) !! j).
Proof.
  revert a rt. induction qs as [|q qs IH]; intros a rt Hpick.
  { exists rt. by repeat split. }
  destruct (lookup_lt_is_Some_2 (options q) (radio inp (a + 0)))
    as [answer Hanswer]; [by apply (Hpick 0%nat q)|].
  destruct (list_index_lookup answer (options q) _ Hanswer) as (ix & Hix & _ & _).
  rewrite Nat.add_0_r in Hanswer.
  cbn [length seq zip zip_with for_each]. unfold mbind, Script_bind.
  unfold record_answer at 1. rewrite Hanswer, Hix. unfold assign at 1.
  match goal with
  | |- context [for_each _ _ ?r] => destruct (IH (S a) r) as (rt' & Hrun & Hnav & Hlogs & Hrec & Hframe)
  end.
  { intros i q' Hq'. specialize (Hpick (S i) q' Hq').
    by replace (S a + i)%nat with (a + S i)%nat by lia. }
  exists rt'. rewrite Hrun. split; [done|]. split; [done|]. split; [done|]. split.
  - intros [|i] q' Hq'.
    + injection Hq' as <-. exists answer, ix. rewrite Nat.add_0_r.
      split; [done|]. split; [done|].
      rewrite Hframe by lia. simpl. by rewrite lookup_insert_eq.
    + destruct (Hrec i q' Hq') as (answer' & ix' & H1 & H2 & H3).
      exists answer', ix'.
      by replace (a + S i)%nat with (S a + i)%nat by lia.
  - intros j Hj. rewrite Hframe by (simpl in Hj; lia). simpl.
    apply lookup_insert_ne. simpl in Hj. lia.
Qed.

(** X6.  The question loop of the quiz page.  When every radio group holds
    one of its options, the loop completes; for every ordinal 1..N it
    stores whether the first position of the picked text equals
    [correct_answer]; entries under other ordinals, the rest of the
    session and both logs stay as they were. *)
Theorem question_loop_records_every_ordinal inp (qs : list Question) rt :
  (∀ i q, qs !! i = Some q -> (radio inp (S i) < length (options q))%nat) ->
  ∃ rt',
    for_each (enumerate1 qs) (record_answer inp) rt = (rt', Done tt)
    ∧ nav (session_state rt') = nav (session_state rt)
    ∧ logs rt' = logs rt
    ∧ (∀ i q, qs !! i = Some q ->
         ∃ answer ix,
           options q !! radio inp (S i) = Some answer
           ∧ list_index answer (options q) = Some ix
           ∧ quiz_answers (session_state rt') !! S i
             = Some (bool_decide (Z.of_nat ix = correct_answer q)))
    ∧ (∀ j, (j = 0 ∨ length qs < j)%nat ->
         quiz_answers (session_state rt') !! j = quiz_answers (session_state rt) !! j).
Proof.
  intros Hpick.
  destruct (record_answers_from inp qs 1 rt Hpick)
    as (rt' & Hrun & Hnav & Hlogs & Hrec & Hframe).
  exists rt'. split; [done|]. split; [done|]. split; [done|]. split; [done|].
  intros j Hj. apply Hframe. lia.
Qed.

Lemma question_loop_records_every_ordinal_witness :
  ∃ rt',
    for_each (enumerate1 Demo.bank) (record_answer (Demo.click None "" 0)) initial_runtime
    = (rt', Done tt)
    ∧ nav (session_state rt') = nav (session_state initial_runtime)
    ∧ logs rt' = logs initial_runtime
    ∧ (∀ i q, Demo.bank !! i = Some q ->
         ∃ answer ix,
           options q !! radio (Demo.click None "" 0) (S i) = Some answer
           ∧ list_index answer (options q) = Some ix
           ∧ quiz_answers (session_state rt') !! S i
             = Some (bool_decide (Z.of_nat ix = correct_answer q)))
    ∧ (∀ j, (j = 0 ∨ length Demo.bank < j)%nat ->
         quiz_answers (session_state rt') !! j
         = quiz_answers (session_state initial_runtime) !! j).
Proof.
  apply (question_loop_records_every_ordinal (Demo.click None "" 0) Demo.bank
           initial_runtime).
  intros [|[|i]] q Hq; simpl in Hq; try done; injection Hq as <-; simpl; lia.
Defined.

(** X7.  With pairwise different option texts the stored answer is the
    comparison of the picked position itself with [correct_answer]. *)
Theorem distinct_options_judge_the_pick inp (qs : list Question) rt i q :
  (∀ i q, qs !! i = Some q -> (radio inp (S i) < length (options q))%nat) ->
  qs !! i = Some q ->
  NoDup (options q) ->
  quiz_answers (session_state (for_each (enumerate1 qs) (record_answer inp) rt).1) !! S i
  = Some (bool_decide (Z.of_nat (radio inp (S i)) = correct_answer q)).
Proof.
  intros Hpick Hq Hnd. unfold enumerate1.
  destruct (record_answers_from inp qs 1 rt Hpick) as (rt' & -> & _ & _ & Hrec & _).
  destruct (Hrec i q Hq) as (answer & ix & Hanswer & Hix & Hstored).
  cbn [Nat.add fst session_state] in *. rewrite Hstored.
  rewrite (list_index_NoDup answer (options q) _ Hnd Hanswer) in Hix.
  by injection Hix as <-.
Qed.

Lemma distinct_options_judge_the_pick_witness :
  quiz_answers
    (session_state
       (for_each (enumerate1 Demo.bank) (record_answer (Demo.click None "" 0))
          initial_runtime).1) !! 2%nat
  = Some (bool_decide (Z.of_nat (radio (Demo.click None "" 0) 2) = 2)).
Proof.
  apply (distinct_options_judge_the_pick (Demo.click None "" 0) Demo.bank
           initial_runtime 1
           {| question := "Q2"; options := ["x"; "y"; "z"]; correct_answer := 2 |}).
  - intros [|[|i]] q Hq; simpl in Hq; try done; injection Hq as <-; simpl; lia.
  - reflexivity.
  - apply (bool_decide_unpack (NoDup ["x"; "y"; "z"])). vm_compute. exact I.
Defined.

(** X8.  With a repeated option text the pick is judged by the first
    position of its text: when the picked text also stands at an earlier
    position and [correct_answer] is the picked position, the answer is
    stored as wrong. *)
Theorem repeated_option_is_judged_by_first_position inp (qs : list Question) rt i q j :
  (∀ i q, qs !! i = Some q -> (radio inp (S i) < length (options q))%nat) ->
  qs !! i = Some q ->
  (j < radio inp (S i))%nat ->
  options q !! j = options q !! radio inp (S i) ->
  correct_answer q = Z.of_nat (radio inp (S i)) ->
  quiz_answers (session_state (for_each (enumerate1 qs) (record_answer inp) rt).1) !! S i
  = Some false.
Proof.
  intros Hpick Hq Hlt Hsame Hcorrect. unfold enumerate1.
  destruct (record_answers_from inp qs 1 rt Hpick) as (rt' & -> & _ & _ & Hrec & _).
  destruct (Hrec i q Hq) as (answer & ix & Hanswer & Hix & Hstored).
  cbn [Nat.add fst session_state] in *. rewrite Hstored.
  rewrite <- Hsame in Hanswer.
  destruct (list_index_lookup answer (options q) j Hanswer) as (ix' & Hix' & Hle & _).
  rewrite Hix in Hix'. injection Hix' as <-.
  f_equal. apply bool_decide_eq_false_2. lia.
Qed.

Lemma repeated_option_is_judged_by_first_position_witness :
  quiz_answers
    (session_state
       (for_each (enumerate1 Demo.bank) (record_answer (Demo.click None "" 0))
          initial_runtime).1) !! 1%nat
  = Some false.
Proof.
  apply (repeated_option_is_judged_by_first_position (Demo.click None "" 0) Demo.bank
           initial_runtime 0
           {| question := "Q1"; options := ["same"; "same"; "other"]; correct_answer := 1 |}
           0).
  - intros [|[|i]] q Hq; simpl in Hq; try done; injection Hq as <-; simpl; lia.
  - reflexivity.
  - simpl. lia.
  - reflexivity.
  - reflexivity.
Defined.

(** ** The count of correct answers *)

Lemma sum_bools_app (l l' : list bool) :
  sum_bools (l ++ l') = sum_bools l + sum_bools l'.
Proof. induction l as [|b l IH]; simpl; [done|]. rewrite IH. lia. Qed.

Lemma sum_bools_perm (l l' : list bool) :
  l ≡ₚ l' -> sum_bools l = sum_bools l'.
Proof. induction 1; simpl; lia. Qed.

Lemma sum_bools_bounds (l : list bool) : 0 ≤ sum_bools l ≤ Z.of_nat (length l).
Proof. induction l as [|[] l IH]; simpl; lia. Qed.

Lemma correct_count_insert (m : gmap nat bool) k b :
  m !! k = None -> correct_count (<[k:=b]> m) = Z.b2z b + correct_count m.
Proof.
  intros Hk. unfold correct_count.
  rewrite (sum_bools_perm _ (b :: (map_to_list m).*2)); [done|].
  by rewrite map_to_list_insert.
Qed.

(** One entry taken out of the dictionary takes its truth value out of
    the count; a missing entry counts nothing. *)
Lemma correct_count_delete (m : gmap nat bool) k :
  correct_count m = Z.b2z (default false (m !! k)) + correct_count (delete k m).
Proof.
  destruct (m !! k) as [b|] eqn:Hk; simpl.
  - rewrite <- (insert_delete_id m k b Hk) at 1.
    apply correct_count_insert, lookup_delete_eq.
  - by rewrite delete_id.
Qed.

(** The entries of the dictionary under ordinals outside 1..[n]. *)
Lemma stale_entries_step (m : gmap nat bool) (n : nat) :
  filter (fun kv : nat * bool => ¬ (1 ≤ kv.1 ≤ S n)%nat) m
  = delete (S n) (filter (fun kv : nat * bool => ¬ (1 ≤ kv.1 ≤ n)%nat) m).
Proof.
  apply map_eq. intros k. destruct (decide (k = S n)) as [->|Hne].
  - rewrite lookup_delete_eq. apply map_lookup_filter_None. right.
    intros b _ Hout. simpl in Hout. lia.
  - rewrite lookup_delete_ne by done.
    destruct (m !! k) as [b|] eqn:Hk.
    + destruct (decide (1 ≤ k ≤ n)%nat) as [Hin|Hout].
      * rewrite !(proj2 (map_lookup_filter_None _ _ _)); [done| |];
          right; intros b' _ Hb'; simpl in Hb'; lia.
      * rewrite !(map_lookup_filter_Some_2 _ _ _ b); [done| | | |]; try done;
          simpl; lia.
    + rewrite !(proj2 (map_lookup_filter_None _ _ _)); [done| |]; by left.
Qed.

Lemma correct_count_split (answers : gmap nat bool) (questions : list Question) :
  correct_count answers
  = sum_bools (answers_list answers questions)
    + correct_count
        (filter (fun kv : nat * bool => ¬ (1 ≤ kv.1 ≤ length questions)%nat) answers).
Proof.
  unfold answers_list. generalize (length questions) as n. clear questions.
  induction n as [|n IH].
  - simpl. rewrite map_filter_id; [done|]. intros k b _. simpl. lia.
  - rewrite seq_S, fmap_app, sum_bools_app. simpl.
    rewrite stale_entries_step.
    rewrite IH at 1.
    rewrite (correct_count_delete (filter _ answers) (S n)).
    replace (filter (fun kv : nat * bool => ¬ (1 ≤ kv.1 ≤ n)%nat) answers !! S n)
      with (answers !! S n).
    + replace (n + 1)%nat with (S n) by lia. lia.
    + destruct (answers !! S n) as [b|] eqn:Hk.
      * symmetry. apply map_lookup_filter_Some_2; [done|]. simpl. lia.
      * symmetry. apply map_lookup_filter_None. by left.
Qed.

(** X9.  The count that enters the score, against the marks that enter the
    row: [sum(quiz_answers.values())] is the number of true marks for
    ordinals 1..N plus the number of true entries stored under any other
    ordinal, so it is never below the number of true marks. *)
Theorem correct_count_is_marks_plus_stale (answers : gmap nat bool)
    (questions : list Question) :
  correct_count answers
  = sum_bools (answers_list answers questions)
    + correct_count
        (filter (fun kv : nat * bool => ¬ (1 ≤ kv.1 ≤ length questions)%nat) answers)
  ∧ sum_bools (answers_list answers questions) ≤ correct_count answers.
Proof.
  pose proof (correct_count_split answers questions) as Hsplit.
  split; [done|]. rewrite Hsplit.
  pose proof (sum_bools_bounds
    (map_to_list (filter (fun kv : nat * bool => ¬ (1 ≤ kv.1 ≤ length questions)%nat)
                    answers)).*2) as Hb.
  unfold correct_count at 1. lia.
Qed.

(** X10.  When the dictionary holds ordinals 1..N only, the count is the
    number of true marks, so it lies between 0 and N. *)
Theorem correct_count_without_stale_entries (answers : gmap nat bool)
    (questions : list Question) :
  (∀ k, is_Some (answers !! k) -> (1 ≤ k ≤ length questions)%nat) ->
  correct_count answers = sum_bools (answers_list answers questions)
  ∧ 0 ≤ correct_count answers ≤ Z.of_nat (length questions).
Proof.
  intros Hclean.
  assert (correct_count answers = sum_bools (answers_list answers questions)) as Heq.
  { rewrite (correct_count_split answers questions).
    rewrite map_empty_filter_2.
    - change (correct_count ∅) with 0. lia.
    - intros k b Hk Hout. simpl in Hout. apply Hout, Hclean. by exists b. }
  split; [done|]. rewrite Heq.
  pose proof (sum_bools_bounds (answers_list answers questions)) as Hb.
  assert (length (answers_list answers questions) = length questions) as Hlen
    by (unfold answers_list; by rewrite length_fmap, length_seq).
  by rewrite Hlen in Hb.
Qed.

(** ** Every run is one transition *)

Lemma nav_set_quiz_answers s1 s :
  nav s1 = nav s -> s1 = set_quiz_answers (quiz_answers s1) s.
Proof.
  destruct s1, s. unfold nav, set_quiz_answers. simpl.
  intros [= -> -> -> -> -> -> ->]. done.
Qed.

Lemma set_quiz_answers_same s : set_quiz_answers (quiz_answers s) s = s.
Proof. by destruct s. Qed.

Lemma login_page_transition env inp rt :
  current_page (session_state rt) = Login ->
  transition env (session_state rt) (session_state (show_login_page env inp rt).1).
Proof.
  intros Hpage. unfold show_login_page.
  destruct (st_button inp btn_login); [|by apply t_stay].
  case_bool_decide as Hempty; [by apply t_stay|].
  destruct (authenticate_user env (login_email inp)) as [full_name|] eqn:Hauth;
    [|by apply t_stay].
  script_unfold. simpl. by eapply t_login.
Qed.

Lemma dashboard_transition env inp rt :
  current_page (session_state rt) = Dashboard ->
  transition env (session_state rt) (session_state (show_dashboard env inp rt).1).
Proof.
  intros Hpage. unfold show_dashboard.
  destruct (st_button inp btn_logout).
  { script_unfold. simpl. by apply t_logout. }
  script_unfold. simpl. case_bool_decide; [by apply t_stay|].
  destruct (start_buttons_spec inp (map_to_list (get_enabled_themes (config env))) rt)
    as [->|(k & tc & Hin & ->)]; [by apply t_stay|].
  apply enabled_themes_lookup in Hin as [Hk He]. simpl.
  by eapply t_start.
Qed.

Lemma learning_transition env inp rt :
  current_page (session_state rt) = Learning ->
  transition env (session_state rt) (session_state (show_learning_page env inp rt).1).
Proof.
  intros Hpage. unfold show_learning_page, theme_of. script_unfold. simpl.
  destruct (selected_theme (session_state rt)) as [k|]; [|by apply t_stay].
  destruct (themes (config env) !! k) as [tc|]; [|by apply t_stay].
  destruct (st_button inp btn_learning_back); simpl; [by apply t_learning_back|].
  destruct (st_button inp btn_to_quiz); simpl; [by apply t_to_quiz|].
  by apply t_stay.
Qed.

Lemma result_transition env inp rt :
  current_page (session_state rt) = Result ->
  transition env (session_state rt) (session_state (show_result_page env inp rt).1).
Proof.
  intros Hpage. unfold show_result_page, theme_of. script_unfold. simpl.
  destruct (selected_theme (session_state rt)) as [k|]; [|by apply t_stay].
  destruct (themes (config env) !! k) as [tc|]; [|by apply t_stay].
  destruct (quiz_time_spent (session_state rt)) as [t|]; [|by apply t_stay].
  destruct (quiz_score (session_state rt)) as [score|]; [|by apply t_stay].
  assert (∀ rt1 : Runtime,
    session_state rt1 = session_state rt ->
    transition env (session_state rt)
      (session_state
         (match (if st_button inp btn_result_dashboard then leave_result else mret tt) rt1 with
          | (rt', Done _) =>
              (if st_button inp btn_result_another then leave_result else mret tt) rt'
          | (rt', Stop sig) => (rt', Stop sig)
          end).1)) as Hnavigate.
  { intros rt1 Heq. unfold leave_result. script_unfold.
    destruct (st_button inp btn_result_dashboard); simpl.
    { rewrite Heq. by apply t_leave_result. }
    destruct (st_button inp btn_result_another); simpl.
    { rewrite Heq. by apply t_leave_result. }
    rewrite Heq. by apply t_stay. }
  destruct (passed score (passing_score tc)); simpl; [by apply Hnavigate|].
  destruct (send_on_retake_needed (email_settings (config env))); simpl.
  - rewrite notify_all. by apply Hnavigate.
  - by apply Hnavigate.
Qed.

Lemma submit_transition env inp tc questions elapsed rt s :
  current_page s = Quiz ->
  nav (session_state rt) = nav s ->
  transition env s (session_state (submit env inp tc questions elapsed rt).1).
Proof.
  intros Hpage Hnav. unfold submit, save_to_google_sheets. script_unfold. simpl.
  destruct (compute_score _ _) as [e|score]; [by apply t_stay|].
  destruct (int_of_float elapsed) as [e|t]; [by apply t_stay|]. simpl.
  assert (transition env s
            (set_current_page Result
               (set_quiz_time_spent (Some t)
                  (set_quiz_score (Some score) (session_state rt))))) as Hdone.
  { eapply (t_submit env s _ (quiz_answers (session_state rt)) score t); [done|].
    by rewrite (nav_set_quiz_answers _ _ Hnav) at 1. }
  destruct (sink_up inp); simpl;
    (destruct (send_on_completion (email_settings (config env)));
       [rewrite notify_all|]; simpl; exact Hdone).
Qed.

Lemma quiz_transition env inp rt :
  current_page (session_state rt) = Quiz ->
  quiz_score (session_state rt) = None ->
  transition env (session_state rt) (session_state (show_quiz_page env inp rt).1).
Proof.
  intros Hpage Hscore.
  unfold show_quiz_page, load_questions, theme_of. script_unfold. simpl.
  destruct (selected_theme (session_state rt)) as [k|] eqn:Hk; [|by apply t_stay].
  destruct (themes (config env) !! k) as [tc|] eqn:Htc; [|by apply t_stay].
  destruct (start_time (session_state rt)) as [t0|]; [|by apply t_stay].
  destruct (elapsed_minutes_total (clock inp) t0) as [elapsed ->].
  script_unfold. simpl.
  destruct (float_gt_zero _).
  2:{ unfold show_result_page, theme_of. script_unfold. simpl.
      rewrite Hk, Htc, Hscore.
      destruct (quiz_time_spent (session_state rt)); by apply t_stay. }
  destruct (st_button inp btn_quiz_back_top); simpl.
  { eapply (t_quiz_back env _ _ (quiz_answers (session_state rt))); [done|].
    by rewrite set_quiz_answers_same. }
  destruct (question_files env (questions_path tc)) as [questions|]; [|by apply t_stay].
  destruct (for_each (enumerate1 questions) (record_answer inp) rt) as [rt1 r1] eqn:Hloop.
  apply record_answers_frame in Hloop as (Hnav & _ & _ & _).
  destruct r1 as [[]|sig]; [|by apply t_stay].
  destruct (st_button inp btn_quiz_back_bottom); simpl.
  { eapply (t_quiz_back env _ _ (quiz_answers (session_state rt1))); [done|].
    by rewrite (nav_set_quiz_answers _ _ Hnav) at 1. }
  destruct (st_button inp btn_submit); [|by apply t_stay].
  by apply submit_transition.
Qed.

(** From a session that satisfies the invariant, a run is one
    transition. *)
Lemma main_transition env inp rt :
  session_inv (config env) (session_state rt) ->
  transition env (session_state rt) (session_state (main env inp rt).1).
Proof.
  intros Hinv. unfold main. script_unfold. simpl.
  unfold session_inv in Hinv.
  destruct (current_page (session_state rt)) eqn:Hpage.
  - rewrite bool_decide_eq_true_2 by by left. by apply login_page_transition.
  - rewrite bool_decide_eq_false_2 by (intros [|]; [done|by destruct Hinv]).
    by apply dashboard_transition.
  - rewrite bool_decide_eq_false_2 by (intros [|]; [done|by destruct Hinv]).
    by apply learning_transition.
  - rewrite bool_decide_eq_false_2 by (intros [|]; [done|by destruct Hinv]).
    apply quiz_transition; [done|by destruct Hinv as (_ & ? & _)].
  - rewrite bool_decide_eq_false_2 by (intros [|]; [done|by destruct Hinv]).
    by apply result_transition.
Qed.

(** X11.  In every runtime the script can reach, one run of the script does to
    the session what one row of the transition table says: it stays on
    the page (recording answers at most), or logs in, logs out, starts an
    enabled theme, goes back from learning, opens the quiz, goes back from
    the quiz, submits, or leaves the result page with theme, answers and
    score cleared. *)
Theorem reachable_run_is_transition env inp rt :
  reachable env rt ->
  transition env (session_state rt) (session_state (main env inp rt).1).
Proof. intros Hreach. by apply main_transition, reachable_inv. Qed.

Lemma reachable_run_is_transition_witness :
  transition Demo.env (session_state Demo.on_quiz)
    (session_state (main Demo.env (Demo.click (Some btn_submit) "" 2000000) Demo.on_quiz).1).
Proof.
  apply (reachable_run_is_transition Demo.env (Demo.click (Some btn_submit) "" 2000000)
           Demo.on_quiz).
  unfold Demo.on_quiz, Demo.on_dashboard.
  apply reachable_interactions, reachable_interactions, reachable_init.
Defined.

(** X12.  The pages follow the page graph: a run from the login page ends on
    login or dashboard; from the dashboard on dashboard, login or
    learning; from learning on learning, dashboard or quiz; from the quiz
    on quiz, learning or result; from the result page on result or
    dashboard. *)
Theorem pages_follow_the_graph env inp rt :
  reachable env rt ->
  page_successor (current_page (session_state rt))
    (current_page (session_state (main env inp rt).1)) = true.
Proof.
  intros Hreach. apply reachable_inv in Hreach.
  destruct (main_transition env inp rt Hreach)
    as [Hnav|? ? Hp _ _ ->|Hp ->|? ? ? Hp _ _ ->|Hp ->|Hp ->|? Hp ->|? ? ? Hp ->|Hp ->];
    try (simpl; by rewrite Hp).
  injection Hnav as _ _ Hp _ _ _ _. rewrite Hp.
  by destruct (current_page (session_state rt)).
Qed.

Lemma pages_follow_the_graph_witness :
  page_successor (current_page (session_state Demo.on_quiz))
    (current_page
       (session_state
          (main Demo.env (Demo.click (Some btn_submit) "" 2000000) Demo.on_quiz).1)) = true.
Proof.
  apply (pages_follow_the_graph Demo.env (Demo.click (Some btn_submit) "" 2000000)
           Demo.on_quiz).
  unfold Demo.on_quiz, Demo.on_dashboard.
  apply reachable_interactions, reachable_interactions, reachable_init.
Defined.

(** ** What reachable sessions look like *)

(** On a reachable result page the score and the elapsed minutes are
    present. *)
Lemma result_page_inv env rt :
  reachable env rt ->
  current_page (session_state rt) = Result ->
  is_Some (quiz_score (session_state rt)) ∧ is_Some (quiz_time_spent (session_state rt)).
Proof.
  induction 1 as [|rt inp Hreach IH]; [done|].
  apply reachable_inv in Hreach.
  destruct (main_transition env inp rt Hreach)
    as [Hnav|? ? Hp _ _ ->|Hp ->|? ? ? Hp _ _ ->|Hp ->|Hp ->|? Hp ->|? ? ? Hp ->|Hp ->];
    try done.
  injection Hnav as _ _ Hp _ _ Hs Ht. rewrite Hp, Hs, Ht. apply IH.
Qed.

(** X13.  In every runtime the script can reach: behind the login page a user
    is set (so the second half of [main]'s first test never fires there),
    login page and dashboard hold no selected theme, and a score is
    present on the result page only, where it comes with the elapsed
    minutes. *)
Theorem reachable_session_shape env rt :
  reachable env rt ->
  let s := session_state rt in
  (current_page s ≠ Login -> user_email s ≠ None)
  ∧ (current_page s = Login ∨ current_page s = Dashboard -> selected_theme s = None)
  ∧ (quiz_score s ≠ None -> current_page s = Result)
  ∧ (current_page s = Result -> is_Some (quiz_score s) ∧ is_Some (quiz_time_spent s)).
Proof.
  intros Hreach s. pose proof (reachable_inv env rt Hreach) as Hinv.
  pose proof (result_page_inv env rt Hreach) as Hres.
  unfold session_inv in Hinv. fold s in Hinv, Hres.
  unfold theme_enabled in Hinv.
  destruct (current_page s); intuition (try done; try congruence).
Qed.

Lemma reachable_session_shape_witness :
  let s := session_state Demo.on_result in
  (current_page s ≠ Login -> user_email s ≠ None)
  ∧ (current_page s = Login ∨ current_page s = Dashboard -> selected_theme s = None)
  ∧ (quiz_score s ≠ None -> current_page s = Result)
  ∧ (current_page s = Result -> is_Some (quiz_score s) ∧ is_Some (quiz_time_spent s)).
Proof.
  apply (reachable_session_shape Demo.env Demo.on_result).
  unfold Demo.on_result, Demo.on_quiz, Demo.on_dashboard.
  repeat apply reachable_interactions. apply reachable_init.
Defined.



(** ** Reruns *)

Lemma no_rerun_ret {A} (a : A) : no_rerun (mret a).
Proof. by intros rt. Qed.

Lemma no_rerun_raise {A} e : no_rerun (@raise A e).
Proof. by intros rt. Qed.

Lemma no_rerun_get : no_rerun get_session.
Proof. by intros rt. Qed.

Lemma no_rerun_assign f : no_rerun (assign f).
Proof. by intros rt. Qed.

Lemma no_rerun_send inp admin t : no_rerun (send_email_notification inp admin t).
Proof. by intros rt. Qed.

Lemma no_rerun_bind {A B} (m : Script A) (f : A -> Script B) :
  no_rerun m -> (∀ a, no_rerun (f a)) -> no_rerun (m ≫= f).
Proof.
  intros Hm Hf rt. unfold mbind, Script_bind. specialize (Hm rt).
  destruct (m rt) as [rt1 [a|sig]]; [apply Hf|].
  simpl in *. intros [= ->]. by apply Hm.
Qed.

Lemma no_rerun_for_each {A} (l : list A) (body : A -> Script unit) :
  (∀ x, no_rerun (body x)) -> no_rerun (for_each l body).
Proof.
  intros Hbody. induction l as [|x l IH]; simpl.
  - apply no_rerun_ret.
  - apply no_rerun_bind; [apply Hbody|by intros _].
Qed.

Ltac no_rerun_step :=
  first
    [ apply no_rerun_ret | apply no_rerun_raise | apply no_rerun_get
    | apply no_rerun_assign | apply no_rerun_send
    | apply no_rerun_for_each; intros ?
    | apply no_rerun_bind; [|intros ?]
    | match goal with
      | |- no_rerun (if ?b then _ else _) => destruct b
      | |- no_rerun (match ?x with _ => _ end) => destruct x
      end ].

Section Idle.

Variables (env : Env) (inp : Input).
Hypothesis no_click : clicked inp = None.

Lemma st_button_idle b : st_button inp b = false.
Proof. unfold st_button. rewrite no_click. by case_bool_decide. Qed.

Lemma no_rerun_show_login_page : no_rerun (show_login_page env inp).
Proof. unfold show_login_page. rewrite st_button_idle. apply no_rerun_ret. Qed.

Lemma no_rerun_show_dashboard : no_rerun (show_dashboard env inp).
Proof. intros rt. by rewrite show_dashboard_idle. Qed.

Lemma no_rerun_show_learning_page : no_rerun (show_learning_page env inp).
Proof.
  unfold show_learning_page, theme_of. rewrite !st_button_idle.
  repeat no_rerun_step.
Qed.

Lemma no_rerun_show_result_page : no_rerun (show_result_page env inp).
Proof.
  unfold show_result_page, theme_of, notify. rewrite !st_button_idle.
  repeat no_rerun_step.
Qed.

Lemma no_rerun_show_quiz_page : no_rerun (show_quiz_page env inp).
Proof.
  unfold show_quiz_page, load_questions, theme_of, elapsed_minutes, try_py.
  rewrite !st_button_idle.
  repeat first [apply no_rerun_show_result_page | no_rerun_step].
  unfold record_answer. destruct x as [i q]. repeat no_rerun_step.
Qed.

Lemma no_rerun_main : no_rerun (main env inp).
Proof.
  unfold main.
  repeat first
    [ apply no_rerun_show_login_page | apply no_rerun_show_dashboard
    | apply no_rerun_show_learning_page | apply no_rerun_show_quiz_page
    | apply no_rerun_show_result_page | no_rerun_step ].
Qed.

End Idle.

(** X15.  A run that no button click triggered never asks for a rerun, on any
    page and in any session: every [st.rerun()] stands behind a button.
    So an interaction is over after the clicked run and one rerun. *)
Theorem run_without_click_does_not_rerun env inp rt :
  clicked inp = None ->
  (main env inp rt).2 ≠ Stop RerunException.
Proof. intros Hclick. by apply no_rerun_main. Qed.

Lemma run_without_click_does_not_rerun_witness :
  (main Demo.env (Demo.click None "" 2000000) Demo.on_quiz).2 ≠ Stop RerunException.
Proof.
  apply (run_without_click_does_not_rerun Demo.env (Demo.click None "" 2000000)
           Demo.on_quiz).
  reflexivity.
Defined.

(** ** What a run does to the logs *)

Section Keeps.

Context {B : Type} (obs : Runtime -> B).

(** The observation looks at the logs only. *)
Hypothesis obs_session :
  ∀ rt s, obs {| session_state := s; worksheet := worksheet rt; outbox := outbox rt |}
          = obs rt.

Lemma keeps_ret {A} (a : A) : keeps obs (mret a).
Proof. by intros rt. Qed.

Lemma keeps_raise {A} e : keeps obs (@raise A e).
Proof. by intros rt. Qed.

Lemma keeps_rerun : keeps obs st_rerun.
Proof. by intros rt. Qed.

Lemma keeps_get : keeps obs get_session.
Proof. by intros rt. Qed.

Lemma keeps_assign f : keeps obs (assign f).
Proof. intros rt. apply obs_session. Qed.

Lemma keeps_bind {A C} (m : Script A) (f : A -> Script C) :
  keeps obs m -> (∀ a, keeps obs (f a)) -> keeps obs (m ≫= f).
Proof.
  intros Hm Hf rt. unfold mbind, Script_bind. specialize (Hm rt).
  destruct (m rt) as [rt1 [a|sig]]; simpl in *; [|done].
  by rewrite Hf.
Qed.

Lemma keeps_for_each {A} (l : list A) (body : A -> Script unit) :
  (∀ x, keeps obs (body x)) -> keeps obs (for_each l body).
Proof.
  intros Hbody. induction l as [|x l IH]; simpl.
  - apply keeps_ret.
  - apply keeps_bind; [apply Hbody|by intros _].
Qed.

End Keeps.

Ltac keeps_step :=
  first
    [ apply keeps_ret | apply keeps_raise | apply keeps_rerun | apply keeps_get
    | apply keeps_assign; intros ? ?; reflexivity
    | apply keeps_for_each; intros ?
    | apply keeps_bind; [|intros ?]
    | match goal with
      | |- keeps _ (if ?b then _ else _) => destruct b
      | |- keeps _ (match ?x with _ => _ end) => destruct x
      end ].

Lemma keeps_logs_show_login_page env inp : keeps logs (show_login_page env inp).
Proof. unfold show_login_page. repeat keeps_step. Qed.

Lemma keeps_logs_show_dashboard env inp : keeps logs (show_dashboard env inp).
Proof.
  unfold show_dashboard. repeat keeps_step.
  unfold start_button. destruct x as [k tc]. repeat keeps_step.
Qed.

Lemma keeps_logs_show_learning_page env inp : keeps logs (show_learning_page env inp).
Proof. unfold show_learning_page, theme_of. repeat keeps_step. Qed.

(** X16.  A run that shows the login page, the dashboard or the learning page
    calls neither the worksheet nor the mail transport, whatever is
    clicked; in particular starting a theme sends no message. *)
Theorem no_collaborator_call_before_the_quiz env inp rt :
  current_page (session_state rt) = Login
  ∨ current_page (session_state rt) = Dashboard
  ∨ current_page (session_state rt) = Learning ->
  worksheet (main env inp rt).1 = worksheet rt
  ∧ outbox (main env inp rt).1 = outbox rt.
Proof.
  intros Hpage.
  assert (logs (main env inp rt).1 = logs rt) as Hlogs.
  { unfold main. script_unfold. simpl. case_bool_decide.
    - apply keeps_logs_show_login_page.
    - destruct (current_page (session_state rt)); try done.
      + apply keeps_logs_show_dashboard.
      + apply keeps_logs_show_learning_page.
      + by destruct Hpage as [|[|]].
      + by destruct Hpage as [|[|]]. }
  by injection Hlogs.
Qed.

Lemma no_collaborator_call_before_the_quiz_witness :
  let inp := Demo.click (Some (btn_start "open")) "" 5 in
  worksheet (main Demo.env inp Demo.on_dashboard).1 = worksheet Demo.on_dashboard
  ∧ outbox (main Demo.env inp Demo.on_dashboard).1 = outbox Demo.on_dashboard.
Proof.
  apply (no_collaborator_call_before_the_quiz Demo.env
           (Demo.click (Some (btn_start "open")) "" 5) Demo.on_dashboard).
  right. left. by vm_compute.
Defined.









(** ** Submission and result page *)

(** X18.  A submission whose score is computed hands one completion message
    per administrator to the transport, in the order of the
    configuration, each with the score, the elapsed minutes and the
    verdict label; a failed call does not keep the later ones from being
    made.  With completion messages switched off it hands over none. *)
Theorem completion_notice_to_every_admin env inp tc questions elapsed rt score t :
  compute_score (quiz_answers (session_state rt)) questions = inr score ->
  int_of_float elapsed = inr t ->
  let s := session_state rt in
  outbox (submit env inp tc questions elapsed rt).1 =
  outbox rt ++
  (if send_on_completion (email_settings (config env)) then
     (fun admin =>
        ({| recipient := admin;
            template := completion_notice (user_name s) (user_email s) (title tc)
                          score t (pass_status score (passing_score tc)) |},
         smtp_up inp admin)) <$> admins (config env)
   else []).
Proof.
  intros Hscore Ht s.
  by rewrite (submit_spec env inp tc questions elapsed rt score t).
Qed.

Lemma completion_notice_to_every_admin_witness :
  let inp := Demo.click (Some btn_submit) "" 2000000 in
  let s := session_state Demo.on_quiz in
  outbox (submit Demo.env inp (Demo.theme "open" (Some true)) Demo.bank
            (float_of_int 0) Demo.on_quiz).1 =
  outbox Demo.on_quiz ++
  (if send_on_completion (email_settings (config Demo.env)) then
     (fun admin =>
        ({| recipient := admin;
            template := completion_notice (user_name s) (user_email s)
                          (title (Demo.theme "open" (Some true)))
                          50 0 (pass_status 50 (passing_score (Demo.theme "open" (Some true)))) |},
         smtp_up inp admin)) <$> admins (config Demo.env)
   else []).
Proof.
  apply (completion_notice_to_every_admin Demo.env
           (Demo.click (Some btn_submit) "" 2000000) (Demo.theme "open" (Some true))
           Demo.bank (float_of_int 0) Demo.on_quiz 50 0).
  - by vm_compute.
  - by vm_compute.
Defined.

(** X19.  The result page of a passed attempt, or of any attempt while retake
    messages are switched off, calls neither collaborator. *)
Theorem result_page_is_silent_without_retake env inp rt k tc score t :
  selected_theme (session_state rt) = Some k ->
  themes (config env) !! k = Some tc ->
  quiz_score (session_state rt) = Some score ->
  quiz_time_spent (session_state rt) = Some t ->
  passing_score tc ≤ score ∨ send_on_retake_needed (email_settings (config env)) = false ->
  worksheet (show_result_page env inp rt).1 = worksheet rt
  ∧ outbox (show_result_page env inp rt).1 = outbox rt.
Proof.
  intros Hk Htc Hs Ht Hquiet.
  unfold show_result_page, theme_of, leave_result. script_unfold. simpl.
  rewrite Hk, Htc, Ht, Hs.
  assert (passed score (passing_score tc) = true
          ∨ send_on_retake_needed (email_settings (config env)) = false) as [->| ->].
  { destruct Hquiet as [Hle|?]; [left|by right]. unfold passed. by apply Z.geb_le. }
  - simpl. destruct (st_button inp btn_result_dashboard); simpl; [done|].
    by destruct (st_button inp btn_result_another).
  - destruct (passed score (passing_score tc)); simpl;
      (destruct (st_button inp btn_result_dashboard); simpl; [done|];
       by destruct (st_button inp btn_result_another)).
Qed.

Lemma result_page_is_silent_without_retake_witness :
  let inp := Demo.click None "" 3000000 in
  worksheet (show_result_page Demo.env inp Demo.on_result).1 = worksheet Demo.on_result
  ∧ outbox (show_result_page Demo.env inp Demo.on_result).1 = outbox Demo.on_result.
Proof.
  apply (result_page_is_silent_without_retake Demo.env (Demo.click None "" 3000000)
           Demo.on_result "open" (Demo.theme "open" (Some true)) 50 0);
    try by vm_compute.
  right. reflexivity.
Defined.

(** X20.  Leaving a reachable result page by either button ends on the
    dashboard with the selected theme, the answers dictionary and the
    score cleared; user, start time and elapsed minutes are kept. *)
Theorem leaving_the_result_page_clears_the_attempt env inp rt :
  reachable env rt ->
  current_page (session_state rt) = Result ->
  clicked inp = Some btn_result_dashboard ∨ clicked inp = Some btn_result_another ->
  session_state (interact env inp rt) =
  set_quiz_score None
    (set_quiz_answers ∅
       (set_selected_theme None (set_current_page Dashboard (session_state rt)))).
Proof.
  intros Hreach Hpage Hclick.
  pose proof (reachable_inv env rt Hreach) as Hinv.
  destruct (result_page_inv env rt Hreach Hpage) as [[score Hs] [t Ht]].
  unfold session_inv in Hinv. rewrite Hpage in Hinv.
  destruct Hinv as (Hu & k & tc & Hk & Htc & _).
  assert (∃ mails,
    main env inp rt =
    ({| session_state :=
          set_quiz_score None
            (set_quiz_answers ∅
               (set_selected_theme None (set_current_page Dashboard (session_state rt))));
        worksheet := worksheet rt; outbox := outbox rt ++ mails |},
     Stop RerunException)) as [mails Hrun].
  { unfold main. script_unfold. simpl. rewrite Hpage.
    rewrite bool_decide_eq_false_2 by (by intros [|]).
    unfold show_result_page, theme_of, leave_result. script_unfold. simpl.
    rewrite Hk, Htc, Ht, Hs.
    assert (st_button inp btn_result_dashboard = true
            ∨ (st_button inp btn_result_dashboard = false
               ∧ st_button inp btn_result_another = true)) as Hbtn.
    { unfold st_button. destruct Hclick as [-> | ->].
      - left. by apply bool_decide_eq_true_2.
      - right. split; [by apply bool_decide_eq_false_2|by apply bool_decide_eq_true_2]. }
    destruct (passed score (passing_score tc)); simpl;
      [exists []|destruct (send_on_retake_needed (email_settings (config env)));
                 [rewrite notify_all; eexists|exists []]]; simpl;
      destruct Hbtn as [-> |[-> ->]]; simpl;
      first [reflexivity | by rewrite app_nil_r]. }
  unfold interact. rewrite Hrun.
  unfold main. script_unfold. simpl.
  rewrite bool_decide_eq_false_2 by (by intros [|]).
  by rewrite show_dashboard_idle.
Qed.

Lemma leaving_the_result_page_clears_the_attempt_witness :
  session_state
    (interact Demo.env (Demo.click (Some btn_result_another) "" 3000000) Demo.on_result) =
  set_quiz_score None
    (set_quiz_answers ∅
       (set_selected_theme None
          (set_current_page Dashboard (session_state Demo.on_result)))).
Proof.
  apply (leaving_the_result_page_clears_the_attempt Demo.env
           (Demo.click (Some btn_result_another) "" 3000000) Demo.on_result).
  - unfold Demo.on_result, Demo.on_quiz, Demo.on_dashboard.
    repeat apply reachable_interactions. apply reachable_init.
  - by vm_compute.
  - by right.
Defined.

Lemma correct_count_without_stale_entries_witness :
  correct_count (<[1%nat := true]> (<[2%nat := false]> ∅))
  = sum_bools (answers_list (<[1%nat := true]> (<[2%nat := false]> ∅)) Demo.bank)
  ∧ 0 ≤ correct_count (<[1%nat := true]> (<[2%nat := false]> ∅))
      ≤ Z.of_nat (length Demo.bank).
Proof.
  apply (correct_count_without_stale_entries
           (<[1%nat := true]> (<[2%nat := false]> ∅)) Demo.bank).
  intros k [b Hk].
  apply lookup_insert_Some in Hk as [[<- _]|[_ Hk]]; [simpl; lia|].
  apply lookup_insert_Some in Hk as [[<- _]|[_ Hk]]; [simpl; lia|].
  by rewrite lookup_empty in Hk.
Defined.

(** ** Quiz page: time limit and unreadable bank *)

(** X21.  In a runtime the script can reach, a run of the quiz page at or past
    the time limit, whatever is clicked, changes nothing and ends in an
    exception raised by the result page: [AttributeError] when the
    session has no elapsed minutes from an earlier submission,
    [TypeError] on the missing score otherwise. *)
Theorem quiz_past_time_limit_raises env inp rt k tc t0 elapsed :
  reachable env rt ->
  current_page (session_state rt) = Quiz ->
  selected_theme (session_state rt) = Some k ->
  themes (config env) !! k = Some tc ->
  start_time (session_state rt) = Some t0 ->
  elapsed_minutes (clock inp) (Some t0) = mret elapsed ->
  float_gt_zero (int_sub_float (time_limit_minutes tc) elapsed) = false ->
  main env inp rt =
  (rt, Stop (Raised (match quiz_time_spent (session_state rt) with
                     | Some _ => TypeError
                     | None => AttributeError
                     end))).
Proof.
  intros Hreach Hpage Hk Htc Ht0 Hel Hout.
  apply reachable_inv in Hreach. unfold session_inv in Hreach.
  rewrite Hpage in Hreach. destruct Hreach as (Hu & Hs & _).
  unfold main. script_unfold. simpl. rewrite Hpage.
  rewrite bool_decide_eq_false_2 by (by intros [|]).
  unfold show_quiz_page, theme_of. script_unfold. simpl.
  rewrite Hk, Htc, Ht0, Hel. script_unfold. simpl. rewrite Hout.
  unfold show_result_page, theme_of. script_unfold. simpl.
  rewrite Hk, Htc, Hs.
  by destruct (quiz_time_spent (session_state rt)).
Qed.

Lemma quiz_past_time_limit_raises_witness :
  let inp := Sample.click btn_submit (10 * Sample.minute) in
  let rt := Sample.on_quiz "basics" in
  main Sample.env inp rt =
  (rt, Stop (Raised (match quiz_time_spent (session_state rt) with
                     | Some _ => TypeError
                     | None => AttributeError
                     end))).
Proof.
  apply (quiz_past_time_limit_raises Sample.env
           (Sample.click btn_submit (10 * Sample.minute)) (Sample.on_quiz "basics")
           "basics" (Sample.theme "Basics" "basics.json") 0
           (float_div (float_div (float_of_int (10 * Sample.minute)) (float_of_int 1000000))
                      (float_of_int 60))).
  - apply reachable_interactions, reachable_init.
  - by vm_compute.
  - by vm_compute.
  - by vm_compute.
  - by vm_compute.
  - reflexivity.
  - by vm_compute.
Defined.

(** X22.  While the question file of the selected theme cannot be read, a run
    of the quiz page within the time limit records no answer and submits
    nothing, also on a click on the submit button: apart from the upper
    back button it changes nothing. *)
Theorem unreadable_bank_blocks_the_quiz env inp rt k tc t0 elapsed :
  current_page (session_state rt) = Quiz ->
  user_email (session_state rt) ≠ None ->
  selected_theme (session_state rt) = Some k ->
  themes (config env) !! k = Some tc ->
  start_time (session_state rt) = Some t0 ->
  elapsed_minutes (clock inp) (Some t0) = mret elapsed ->
  float_gt_zero (int_sub_float (time_limit_minutes tc) elapsed) = true ->
  question_files env (questions_path tc) = None ->
  clicked inp ≠ Some btn_quiz_back_top ->
  main env inp rt = (rt, Done tt).
Proof.
  intros Hpage Hu Hk Htc Ht0 Hel Hin Hfile Hclick.
  unfold main. script_unfold. simpl. rewrite Hpage.
  rewrite bool_decide_eq_false_2 by (by intros [|]).
  unfold show_quiz_page, load_questions, theme_of. script_unfold. simpl.
  rewrite Hk, Htc, Ht0, Hel. script_unfold. simpl. rewrite Hin.
  unfold st_button at 1. rewrite (bool_decide_eq_false_2 _ Hclick). simpl.
  by rewrite Hfile.
Qed.

Lemma unreadable_bank_blocks_the_quiz_witness :
  let env := {| config := Demo.cfg; employees_csv := Some Demo.roster;
                question_files := fun _ => None |} in
  main env (Demo.click (Some btn_submit) "" 2000000) Demo.on_quiz = (Demo.on_quiz, Done tt).
Proof.
  apply (unreadable_bank_blocks_the_quiz
           {| config := Demo.cfg; employees_csv := Some Demo.roster;
              question_files := fun _ => None |}
           (Demo.click (Some btn_submit) "" 2000000) Demo.on_quiz
           "open" (Demo.theme "open" (Some true)) 0
           (float_div (float_div (float_of_int 2000000) (float_of_int 1000000))
                      (float_of_int 60))).
  - by vm_compute.
  - by vm_compute.
  - by vm_compute.
  - by vm_compute.
  - by vm_compute.
  - reflexivity.
  - by vm_compute.
  - reflexivity.
  - discriminate.
Defined.
